(** * Canvas node manager, type guards and error taxonomy of context-pilot

    A shallow embedding of

    - [src/types/canvas-guards.ts]      (run-time variant guards),
    - [src/canvas/canvas-errors.ts]     (the canvas error classes),
    - [src/canvas/canvas-node-manager.ts] (the node/edge mutator),

    together with the properties the specification states about them.

    Conventions.  JavaScript numbers that hold coordinates, sizes and
    offsets are integers here ([Z]), and the sums that place a node are
    rounded as binary64 sums are; the host (Obsidian's canvas) is an
    arbitrary collaborator: each of its methods is a state transformer on an
    abstract host state that may return or throw, and a method that an
    object does not have is [None].  Every call the manager really makes is
    appended to a trace, so that "which primitive was invoked, with what, in
    which order" is a statement about that trace. *)

From stdpp Require Import gmap strings list.
From Stdlib Require Import ZArith Lia DecimalString.

Local Open Scope Z_scope.
Local Open Scope string_scope.

(* ===================================================================== *)
(** * JavaScript values seen through the [as any] casts of the guards     *)
(* ===================================================================== *)

Module Js.

(** The values a duck-typed property can hold.  [VFun] is an opaque
    function value; [VObj] is a plain object, a finite map from property
    names to values. *)
#[warnings="-register-all"]
Inductive JsVal : Type :=
| VUndefined
| VNull
| VBool (b : bool)
| VNum (n : Z)
| VStr (s : string)
| VFun
| VObj (o : gmap string JsVal).

(** [typeof v] *)
Definition typeof (v : JsVal) : string :=
  match v with
  | VUndefined => "undefined"
  | VNull => "object"
  | VBool _ => "boolean"
  | VNum _ => "number"
  | VStr _ => "string"
  | VFun => "function"
  | VObj _ => "object"
  end.

(** ToBoolean: what [!v], [v && ...] and [if (v)] look at. *)
Definition truthy (v : JsVal) : bool :=
  match v with
  | VUndefined | VNull => false
  | VBool b => b
  | VNum n => negb (n =? 0)%Z
  | VStr s => negb (String.eqb s "")
  | VFun | VObj _ => true
  end.

(** [v === 'lit'] for a string literal. *)
Definition is_lit (v : JsVal) (lit : string) : bool :=
  match v with
  | VStr s => String.eqb s lit
  | _ => false
  end.

(** [o.k] on a value already known not to be null or undefined: a
    missing property reads as [undefined]. *)
Definition prop (v : JsVal) (k : string) : JsVal :=
  match v with
  | VObj o => default VUndefined (o !! k)
  | _ => VUndefined
  end.

(** A string parameter that may be omitted ([label?: string],
    [message?: string]): [None] is [undefined]. *)
Definition truthy_str (s : option string) : bool :=
  match s with
  | Some s => negb (String.eqb s "")
  | None => false
  end.

(** [s || d] *)
Definition or_default (s : option string) (d : string) : string :=
  if truthy_str s then default d s else d.

End Js.
Import Js.

(* ===================================================================== *)
(** * Nodes and the variant guards ([canvas-guards.ts])                   *)
(* ===================================================================== *)

(** Modelled from the spec: the declaration of [CanvasNode]
    ([types/canvas.ts]) is not among the sources.  Section 3 gives a node
    an opaque string id, a position [(x, y)] and a size [(width, height)];
    every other property ([type], [text], [file], [url], ...) is kept as
    the guards read it, by name, from the object, since the host does not
    always populate them. *)
Record CanvasNode : Type := mkNode {
  n_id : string;
  n_x : Z;
  n_y : Z;
  n_width : Z;
  n_height : Z;
  n_props : gmap string JsVal
}.

(** [node.k] for one of the duck-typed properties. *)
Definition field (node : CanvasNode) (k : string) : JsVal :=
  default VUndefined (n_props node !! k).

Definition with_props (node : CanvasNode) (p : gmap string JsVal) : CanvasNode :=
  {| n_id := n_id node; n_x := n_x node; n_y := n_y node;
     n_width := n_width node; n_height := n_height node; n_props := p |}.

Definition isTextNode (node : CanvasNode) : bool :=
  is_lit (field node "type") "text"
  || (negb (truthy (field node "type"))
      && String.eqb (typeof (field node "text")) "string").

Definition isFileNode (node : CanvasNode) : bool :=
  if is_lit (field node "type") "file" then true
  else if truthy (field node "type") then false
  else
    let file := field node "file" in
    if String.eqb (typeof file) "string" then true
    else if truthy file
            && String.eqb (typeof file) "object"
            && String.eqb (typeof (prop file "path")) "string" then true
    else false.

Definition isLinkNode (node : CanvasNode) : bool :=
  is_lit (field node "type") "link"
  || (negb (truthy (field node "type"))
      && String.eqb (typeof (field node "url")) "string").

Definition isGroupNode (node : CanvasNode) : bool :=
  if is_lit (field node "type") "group" then true
  else if truthy (field node "type") then false
  else
    String.eqb (typeof (field node "text")) "undefined"
    && String.eqb (typeof (field node "file")) "undefined"
    && String.eqb (typeof (field node "url")) "undefined".

(** ** Views and the canvas-view guard *)

(** Modelled from the spec: the host's [View] class is not among the
    sources.  A view "qualifies as a graph view via a type-tag check"
    (section 6): it is its type tag, which is what [getViewType()] returns,
    and, opaquely, whatever else it carries. *)
Record View : Type := mkView {
  viewType : string;
  viewPayload : nat
}.

Definition getViewType (v : View) : string := viewType v.

Definition isCanvasView (view : View) : bool :=
  String.eqb (getViewType view) "canvas".

(** Modelled from the spec: the host workspace is not among the sources.
    Section 6 gives it [getActiveViewOfType(kind) -> View|null]; its state,
    as far as the manager looks at it, is the active view, if there is
    one. *)
Record Workspace : Type := mkWorkspace {
  activeView : option View
}.

Definition getActiveViewOfType (ws : Workspace) : option View := activeView ws.

(** [CanvasNodeManager.getActiveCanvas] *)
Definition getActiveCanvas (ws : Workspace) : option View :=
  match getActiveViewOfType ws with
  | Some v => if isCanvasView v then Some v else None
  | None => None
  end.

(* ===================================================================== *)
(** * The error taxonomy ([canvas-errors.ts])                             *)
(* ===================================================================== *)

Inductive Operation : Type := OpCreate | OpUpdate | OpConnect.

Inductive Stage : Type := StNodeContent | StConnectedNodes | StContextBuild.

(** Modelled from the spec: the base class [BaseAIError] ([utils/errors])
    is not among the sources.  Of its constructor only what the subclasses
    pass on is kept, the message and the optional details; the [retryable]
    flag of the taxonomy (section 7) is set by each subclass itself. *)
Record BaseAIError : Type := mkBase {
  message : string;
  details : option string
}.

Record CanvasNotAvailableError : Type := mkCanvasNotAvailableError {
  cna_base : BaseAIError;
  cna_retryable : bool
}.

Record NodeOperationError : Type := mkNodeOperationError {
  noe_base : BaseAIError;
  noe_retryable : bool;
  noe_operation : Operation;
  noe_nodeId : option string
}.

Record ContextExtractionError : Type := mkContextExtractionError {
  cee_base : BaseAIError;
  cee_retryable : bool;
  cee_stage : Stage;
  cee_nodeId : option string
}.

(** [new CanvasNotAvailableError(message = '请先打开一个 Canvas 文件', details?)]:
    a default parameter replaces [undefined] only. *)
Definition new_CanvasNotAvailableError
    (msg : option string) (det : option string) : CanvasNotAvailableError :=
  {| cna_base := mkBase (default "请先打开一个 Canvas 文件" msg) det;
     cna_retryable := false |}.

Definition NodeOperationError_defaultMessages (operation : Operation) : string :=
  match operation with
  | OpCreate => "无法创建节点"
  | OpUpdate => "无法更新节点内容"
  | OpConnect => "无法创建节点连接"
  end.

(** [new NodeOperationError(operation, message?, nodeId?, details?)] *)
Definition new_NodeOperationError
    (operation : Operation) (msg nodeId det : option string) : NodeOperationError :=
  {| noe_base := mkBase (or_default msg (NodeOperationError_defaultMessages operation)) det;
     noe_retryable := true;
     noe_operation := operation;
     noe_nodeId := nodeId |}.

Definition ContextExtractionError_defaultMessages (stage : Stage) : string :=
  match stage with
  | StNodeContent => "无法提取节点内容"
  | StConnectedNodes => "无法访问连接的节点"
  | StContextBuild => "无法构建上下文字符串"
  end.

(** [new ContextExtractionError(stage, message?, nodeId?, details?)] *)
Definition new_ContextExtractionError
    (stage : Stage) (msg nodeId det : option string) : ContextExtractionError :=
  {| cee_base := mkBase (or_default msg (ContextExtractionError_defaultMessages stage)) det;
     cee_retryable := false;
     cee_stage := stage;
     cee_nodeId := nodeId |}.

(** Whatever can be thrown and caught: a plain [Error] (or [TypeError], ...)
    with its class name and message, or an instance of the taxonomy. *)
Inductive JsError : Type :=
| PlainError (name msg : string)
| OfCanvasNotAvailable (e : CanvasNotAvailableError)
| OfNodeOperation (e : NodeOperationError)
| OfContextExtraction (e : ContextExtractionError).

(** The [retryable] flag of an instance of the taxonomy; a plain error has
    none. *)
Definition retryable (e : JsError) : option bool :=
  match e with
  | PlainError _ _ => None
  | OfCanvasNotAvailable e => Some (cna_retryable e)
  | OfNodeOperation e => Some (noe_retryable e)
  | OfContextExtraction e => Some (cee_retryable e)
  end.

(* ===================================================================== *)
(** * Geometry ([canvas-node-manager.ts], pure part)                      *)
(* ===================================================================== *)

Inductive Side : Type := SideTop | SideRight | SideBottom | SideLeft.

Record EdgeSides : Type := mkSides {
  fromSide : Side;
  toSide : Side
}.

Record Position : Type := mkPos {
  pos_x : Z;
  pos_y : Z
}.

Record Size : Type := mkSize {
  size_width : Z;
  size_height : Z
}.

(** [CanvasNodeManager.determineEdgeSides] *)
Definition determineEdgeSides (fromNode toNode : CanvasNode) : EdgeSides :=
  let dx := n_x toNode - n_x fromNode in
  let dy := n_y toNode - n_y fromNode in
  if Z.abs dx >? Z.abs dy then
    if dx >? 0 then mkSides SideRight SideLeft else mkSides SideLeft SideRight
  else
    if dy >? 0 then mkSides SideBottom SideTop else mkSides SideTop SideBottom.

(** ** Addition of numbers

    A JavaScript number is a binary64 value.  The coordinates, sizes and
    offsets are integer-valued ones, written as the integer they hold; a
    sum of two of them is the exact sum rounded to the nearest value with a
    53-bit significand, ties going to the even significand, and is an
    infinity when that is beyond the largest finite value. *)

(** What an addition can yield. *)
Inductive JsNumber : Type :=
| Num (z : Z)
| PosInfinity
| NegInfinity
| NotANumber.

(** The integer nearest to [z] that has a 53-bit significand (ties to
    even), the exponent being unbounded. *)
Definition round_binary64 (z : Z) : Z :=
  let a := Z.abs z in
  if (a <=? 2 ^ 53)%Z then z
  else
    let e := Z.log2 a - 52 in
    let q := a / 2 ^ e in
    let r := a mod 2 ^ e in
    let half := 2 ^ (e - 1) in
    let q' := if ((half <? r) || ((r =? half) && Z.odd q))%Z then q + 1 else q in
    Z.sgn z * (q' * 2 ^ e).

(** [a + b] on numbers. *)
Definition js_add (a b : JsNumber) : JsNumber :=
  match a, b with
  | NotANumber, _ | _, NotANumber => NotANumber
  | PosInfinity, NegInfinity | NegInfinity, PosInfinity => NotANumber
  | PosInfinity, _ | _, PosInfinity => PosInfinity
  | NegInfinity, _ | _, NegInfinity => NegInfinity
  | Num x, Num y =>
      let r := round_binary64 (x + y) in
      if (2 ^ 1024 <=? r)%Z then PosInfinity
      else if (r <=? - 2 ^ 1024)%Z then NegInfinity
      else Num r
  end.

(** The pair [{x, y}] that [calculateNodePosition] returns. *)
Record Placement : Type := mkPlacement {
  at_x : JsNumber;
  at_y : JsNumber
}.

(** [CanvasNodeManager.calculateNodePosition] *)
Definition calculateNodePosition
    (triggerNode : CanvasNode) (offsetX offsetY : Z) : Placement :=
  let x := js_add (Num (n_x triggerNode)) (Num offsetX) in
  let y := js_add (js_add (Num (n_y triggerNode)) (Num (n_height triggerNode)))
             (Num offsetY) in
  mkPlacement x y.

(* ===================================================================== *)
(** * Graph data, host objects and the effect monad                       *)
(* ===================================================================== *)

(** Modelled from the spec: the declarations of the serialised graph
    ([types/canvas.ts]) are not among the sources.  An edge record has an
    id, [fromNode]/[toNode] node ids, optional sides and an optional label
    (section 3); these are also the fields of the record that [createEdge]
    builds. *)
Record EdgeData : Type := mkEdgeData {
  ed_id : string;
  ed_fromNode : string;
  ed_fromSide : option Side;
  ed_toNode : string;
  ed_toSide : option Side;
  ed_label : option string
}.

(** The snapshot [{nodes, edges}]; [edges] may be missing, which is what
    [data.edges || []] caters for. *)
Record CanvasData : Type := mkCanvasData {
  cd_nodes : list CanvasNode;
  cd_edges : option (list EdgeData)
}.

(** The argument of the host's [createTextNode]. *)
Record CreateNodeOptions : Type := mkCreateNodeOptions {
  opt_pos : Position;
  opt_size : Size;
  opt_text : string;
  opt_focus : bool;
  opt_save : bool
}.

(** The result of evaluating a statement or a call: it completes with a
    value, or an exception leaves it. *)
Inductive Outcome (A : Type) : Type :=
| Ok (a : A)
| Throw (e : JsError).
Arguments Ok {A} a.
Arguments Throw {A} e.

(** What is passed to [console.log] / [console.error] after the tag. *)
Inductive LogArg : Type :=
| LogError (e : JsError)
| LogEdgeId (i : string)
| LogEdge (e : EdgeData)
| LogNode (n : CanvasNode)
| LogNothing.

(** One entry per call that the manager makes on a collaborator. *)
Inductive Event : Type :=
| EvCreateTextNode (o : CreateNodeOptions)
| EvCreateEdge (fromNode toNode : CanvasNode) (sides : EdgeSides)
| EvEdgeSetText (label : string)
| EvNodeSetText (content : string)
| EvGetData
| EvImportData (d : CanvasData)
| EvRequestSave
| EvRequestFrame
| EvConsoleLog (tag : string) (arg : LogArg)
| EvConsoleError (tag : string) (arg : LogArg)
| EvNotice (msg : string).

(** ** State and exceptions *)

Section StateExn.

Context {S : Type}.

(** A computation over a state [S]: from a state, an outcome and the state
    it leaves behind (also when it throws). *)
Definition St (A : Type) : Type := S -> Outcome A * S.

Definition ret {A} (a : A) : St A := fun s => (Ok a, s).

Definition throw {A} (e : JsError) : St A := fun s => (Throw e, s).

Definition bind {A B} (m : St A) (k : A -> St B) : St B :=
  fun s =>
    match m s with
    | (Ok a, s') => k a s'
    | (Throw e, s') => (Throw e, s')
    end.

(** [try { body } catch (error) { handler }] *)
Definition try_catch {A} (body : St A) (handler : JsError -> St A) : St A :=
  fun s =>
    match body s with
    | (Ok a, s') => (Ok a, s')
    | (Throw e, s') => handler e s'
    end.

End StateExn.

Arguments St S A : clear implicits.

Declare Scope js_scope.
Delimit Scope js_scope with js.
Notation "'let!' x ':=' m 'in' k" := (bind m (fun x => k))
  (at level 10, x name, m at level 100, k at level 200) : js_scope.
Notation "m ';;' k" := (bind m (fun _ => k))
  (at level 100, k at level 200, right associativity) : js_scope.

(** ** The host *)

Section Host.

(** The host's own state: the canonical graph, its DOM, its clock and
    random source, all opaque to the manager. *)
Context {H : Type}.

(** A host primitive: runs on the host state, returns or throws. *)
Definition HostCall (A : Type) : Type := St H A.

(** A method of a node object: it may rewrite the node's own properties as
    well as the host state. *)
Definition NodeMethod (A : Type) : Type := St (CanvasNode * H) A.

(** The edge object that the host's [createEdge] hands back.  [e_setText]
    is [Some] exactly when [typeof edge.setText === 'function']. *)
Record CanvasEdge : Type := mkEdge {
  e_id : string;
  e_label : option string;
  e_setText : option (string -> HostCall unit)
}.

(** A node object as the host hands it out: its properties and the two
    capabilities that the manager probes.  [tn_setText] is [Some] exactly
    when [typeof node.setText === 'function']; [tn_getData] says whether
    [typeof node.getData === 'function']. *)
Record CanvasTextNode : Type := mkTextNode {
  tn_node : CanvasNode;
  tn_setText : option (string -> NodeMethod unit);
  tn_getData : bool
}.

(** Modelled from the spec: the declaration of [Canvas] ([types/canvas.ts])
    is not among the sources.  The methods are those of the graph host
    surface of section 6.  A method that is missing (or is not a function)
    is [None]; calling it throws a [TypeError].  The host's [createTextNode]
    and [createEdge] may hand back [null]/[undefined] ([None]), and so may
    [getData]. *)
Record Canvas : Type := mkCanvas {
  c_createTextNode : option (CreateNodeOptions -> HostCall (option CanvasTextNode));
  c_createEdge : option (CanvasNode -> CanvasNode -> EdgeSides -> HostCall (option CanvasEdge));
  c_getData : option (HostCall (option CanvasData));
  c_importData : option (CanvasData -> HostCall unit);
  c_requestSave : option (HostCall unit);
  c_requestFrame : option (HostCall unit)
}.

(** The state threaded through the manager: the host state and the calls
    made so far, oldest first. *)
Record World : Type := mkWorld {
  w_host : H;
  w_trace : list Event
}.

Definition M (A : Type) : Type := St World A.

(** Record a call that cannot fail ([console.*], [new Notice]). *)
Definition emit (ev : Event) : M unit :=
  fun w => (Ok tt, mkWorld (w_host w) (w_trace w ++ [ev])).

(** Record a call and let the host primitive run. *)
Definition call {A} (ev : Event) (f : HostCall A) : M A :=
  fun w =>
    let (r, h) := f (w_host w) in
    (r, mkWorld h (w_trace w ++ [ev])).

Definition TypeError (what : string) : JsError :=
  PlainError "TypeError" (what +:+ " is not a function").

(** [obj.method(args)] without a [typeof] probe: a missing method throws
    before anything is called. *)
Definition invoke {A} (what : string) (ev : Event) (method : option (HostCall A)) : M A :=
  match method with
  | Some f => call ev f
  | None => throw (TypeError what)
  end.

(** A property read on what may be [null]/[undefined]. *)
Definition deref {A} (what : string) (o : option A) : M A :=
  match o with
  | Some a => ret a
  | None => throw (PlainError "TypeError" ("Cannot read properties of undefined: " +:+ what))
  end.

(** The state of an operation that mutates the node it is given: that node
    object, and the world. *)
Definition NodeWorld : Type := CanvasTextNode * World.

(** Run a step that does not touch the node. *)
Definition on_world {A} (m : M A) : St NodeWorld A :=
  fun '(node, w) =>
    let (r, w') := m w in
    (r, (node, w')).

(** Record a call of one of the node's own methods and let it run. *)
Definition call_method {A} (ev : Event) (f : NodeMethod A) : St NodeWorld A :=
  fun '(node, w) =>
    let '(r, (n, h)) := f (tn_node node, w_host w) in
    (r, (mkTextNode n (tn_setText node) (tn_getData node),
         mkWorld h (w_trace w ++ [ev]))).

(** Rewrite the node's properties in place. *)
Definition mutate (f : CanvasNode -> CanvasNode) : St NodeWorld unit :=
  fun '(node, w) =>
    (Ok tt, (mkTextNode (f (tn_node node)) (tn_setText node) (tn_getData node), w)).

(** The node object itself ([nodeAny]). *)
Definition this_node : St NodeWorld CanvasTextNode :=
  fun '(node, w) => (Ok node, (node, w)).

End Host.

Arguments CanvasEdge H : clear implicits.
Arguments CanvasTextNode H : clear implicits.
Arguments Canvas H : clear implicits.
Arguments World H : clear implicits.
Arguments NodeWorld H : clear implicits.

(* ===================================================================== *)
(** * The node/edge mutator ([canvas-node-manager.ts], effectful part)    *)
(* ===================================================================== *)

Section Manager.

Context {H : Type}.

(** [Date.now()] and [Math.random().toString(36).substr(2, 9)]: readings of
    the host's clock and random source.  Neither can throw; the random
    source moves on. *)
Variable Date_now : H -> Z.
Variable Math_random_suffix : H -> string * H.

Local Open Scope js_scope.

Definition read_clock : M (H:=H) Z :=
  fun w => (Ok (Date_now (w_host w)), w).

Definition read_random : M (H:=H) string :=
  fun w =>
    let (s, h) := Math_random_suffix (w_host w) in
    (Ok s, mkWorld h (w_trace w)).

(** The decimal rendering of a number inside a template literal. *)
Definition render_number (z : Z) : string := NilZero.string_of_int (Z.to_int z).

(** [CanvasNodeManager.createTextNode] *)
Definition createTextNode
    (canvas : Canvas H) (content : string) (x y width height : Z)
    : M (option (CanvasTextNode H)) :=
  let options :=
    {| opt_pos := mkPos x y;
       opt_size := mkSize width height;
       opt_text := content;
       opt_focus := false;
       opt_save := false |} in
  let! node := invoke "canvas.createTextNode" (EvCreateTextNode options)
                 (option_map (fun f => f options) (c_createTextNode canvas)) in
  (match node with
   | Some n =>
       if negb (tn_getData n)
       then emit (EvConsoleError
                    "[Canvas AI] 创建的节点实例不完整（缺少 getData），可能导致保存失败"
                    (LogNode (tn_node n)))
       else ret tt
   | None => ret tt
   end) ;;
  ret node.

(** [node.text = content] *)
Definition assign_text (content : string) (node : CanvasNode) : CanvasNode :=
  with_props node (<["text" := VStr content]> (n_props node)).

(** [CanvasNodeManager.updateNodeContent(canvas, node, content)].  The node
    is mutated in place: it is the first component of the state the
    operation runs on. *)
Definition updateNodeContent (canvas : Canvas H) (content : string)
    : St (NodeWorld H) unit :=
  let! nodeAny := this_node in
  (match tn_setText nodeAny with
   | Some setText => call_method (EvNodeSetText content) (setText content)
   | None => mutate (assign_text content)
   end) ;;
  match c_requestFrame canvas with
  | Some requestFrame => on_world (call EvRequestFrame requestFrame)
  | None => ret tt
  end.

(** The [try] block of [createEdge]: the host's own edge creation. *)
Definition createEdge_direct
    (canvas : Canvas H) (fromNode toNode : CanvasNode) (label : option string)
    : M unit :=
  let sides := determineEdgeSides fromNode toNode in
  let! edge := invoke "canvas.createEdge" (EvCreateEdge fromNode toNode sides)
                 (option_map (fun f => f fromNode toNode sides) (c_createEdge canvas)) in
  let! edge :=
    if truthy_str label then
      let l := default "" label in
      let! e := deref "setText" edge in
      match e_setText e with
      | Some setText => call (EvEdgeSetText l) (setText l) ;; ret edge
      | None => ret (Some (mkEdge (e_id e) (Some l) (e_setText e)))
      end
    else ret edge in
  invoke "canvas.requestSave" EvRequestSave (c_requestSave canvas) ;;
  let! e := deref "id" edge in
  emit (EvConsoleLog "[Canvas AI] 连线创建成功 (API)" (LogEdgeId (e_id e))).

(** The inner [try] block: the data-driven splice. *)
Definition createEdge_fallback
    (canvas : Canvas H) (fromNode toNode : CanvasNode) (label : option string)
    : M unit :=
  emit (EvConsoleLog "[Canvas AI] 尝试降级使用 Data-Driven 模式创建连接" LogNothing) ;;
  let! now := read_clock in
  let! suffix := read_random in
  let edgeId := "edge-" +:+ render_number now +:+ "-" +:+ suffix in
  let! data := invoke "canvas.getData" EvGetData (c_getData canvas) in
  match data with
  | None => throw (PlainError "Error" "无法获取 Canvas 数据")
  | Some data =>
      let sides := determineEdgeSides fromNode toNode in
      let newEdge :=
        {| ed_id := edgeId;
           ed_fromNode := n_id fromNode;
           ed_fromSide := Some (fromSide sides);
           ed_toNode := n_id toNode;
           ed_toSide := Some (toSide sides);
           ed_label := Some (or_default label "") |} in
      let newData :=
        {| cd_nodes := cd_nodes data;
           cd_edges := Some (default [] (cd_edges data) ++ [newEdge])%list |} in
      invoke "canvas.importData" (EvImportData newData)
        (option_map (fun f => f newData) (c_importData canvas)) ;;
      invoke "canvas.requestFrame" EvRequestFrame (c_requestFrame canvas) ;;
      emit (EvConsoleLog "[Canvas AI] 连线创建成功 (Data-Driven)" (LogEdge newEdge))
  end.

(** [CanvasNodeManager.createEdge] *)
Definition createEdge
    (canvas : Canvas H) (fromNode toNode : CanvasNode) (label : option string)
    : M unit :=
  try_catch
    (createEdge_direct canvas fromNode toNode label)
    (fun error =>
       emit (EvConsoleError "[Canvas AI] 创建边失败:" (LogError error)) ;;
       try_catch
         (createEdge_fallback canvas fromNode toNode label)
         (fun fallbackError =>
            emit (EvConsoleError "[Canvas AI] 创建边失败 (Fallback):" (LogError fallbackError)) ;;
            emit (EvNotice "无法创建连接"))).

End Manager.

(** The two log lines and the notice, as they appear in a trace. *)
Abbreviation direct_failed error :=
  (EvConsoleError "[Canvas AI] 创建边失败:" (LogError error)).
Abbreviation fallback_started :=
  (EvConsoleLog "[Canvas AI] 尝试降级使用 Data-Driven 模式创建连接" LogNothing).
Abbreviation fallback_failed error :=
  (EvConsoleError "[Canvas AI] 创建边失败 (Fallback):" (LogError error)).
Abbreviation cannot_connect := (EvNotice "无法创建连接").

(* ===================================================================== *)
(** * Concrete nodes and hosts                                            *)
(* ===================================================================== *)

(** The nodes of the unit tests ([canvas-node-manager.test.ts]). *)
Definition node1 : CanvasNode :=
  mkNode "node-1" 0 0 100 100
    (<["type" := VStr "text"]> (<["text" := VStr "From node"]> ∅)).

Definition node2 : CanvasNode :=
  mkNode "node-2" 0 150 100 100
    (<["type" := VStr "text"]> (<["text" := VStr "To node"]> ∅)).

Definition triggerNode : CanvasNode :=
  mkNode "1" 100 100 200 100
    (<["type" := VStr "text"]> (<["text" := VStr "Trigger"]> ∅)).


(** Host objects that carry no discriminator. *)
Definition textAndUrlNode : CanvasNode :=
  mkNode "n" 0 0 10 10 (<["text" := VStr "hello"]> (<["url" := VStr "https://example.org"]> ∅)).

Definition textAndFileNode : CanvasNode :=
  mkNode "n" 0 0 10 10 (<["text" := VStr "hello"]> (<["file" := VStr "notes/a.md"]> ∅)).

Definition tfileNode : CanvasNode :=
  mkNode "n" 0 0 10 10 (<["file" := VObj (<["path" := VStr "notes/a.md"]> ∅)]> ∅).

Definition bareNode : CanvasNode := mkNode "n" 0 0 10 10 ∅.

(** A node whose discriminator is present and is the empty string. *)
Definition emptyTypeNode : CanvasNode :=
  mkNode "n" 0 0 10 10 (<["type" := VStr ""]> (<["text" := VStr "hello"]> ∅)).

Definition fileTypedNode : CanvasNode :=
  mkNode "n" 0 0 10 10 (<["type" := VStr "file"]> (<["text" := VStr "hello"]> ∅)).

(** A node at the end of the range in which integers are exact. *)
Definition farNode : CanvasNode := mkNode "far" 0 (2 ^ 53) 200 1 ∅.

Definition canvasView : View := mkView "canvas" 7.
Definition markdownView : View := mkView "markdown" 3.

(** A host whose state is the serialised graph itself, as in the mock
    canvas of the unit tests. *)
Module Mock.

Definition now (_ : CanvasData) : Z := 1700000000000.

Definition random (h : CanvasData) : string * CanvasData := ("k3x9q0w2z", h).

Definition emptyData : CanvasData := mkCanvasData [] (Some []).

Definition getData : HostCall (H:=CanvasData) (option CanvasData) :=
  fun h => (Ok (Some h), h).

Definition noData : HostCall (H:=CanvasData) (option CanvasData) :=
  fun h => (Ok None, h).

Definition importData (d : CanvasData) : HostCall (H:=CanvasData) unit :=
  fun _ => (Ok tt, d).

Definition importDataThrows (d : CanvasData) : HostCall (H:=CanvasData) unit :=
  fun h => (Throw (PlainError "Error" "import rejected"), h).

Definition noop : HostCall (H:=CanvasData) unit := fun h => (Ok tt, h).

Definition createEdgeThrows (f t : CanvasNode) (s : EdgeSides)
    : HostCall (H:=CanvasData) (option (CanvasEdge CanvasData)) :=
  fun h => (Throw (PlainError "TypeError" "Cannot read properties of undefined"), h).

Definition hostCreateTextNode (o : CreateNodeOptions)
    : HostCall (H:=CanvasData) (option (CanvasTextNode CanvasData)) :=
  fun h =>
    (Ok (Some (mkTextNode
                 (mkNode "node-1700000000000"
                    (pos_x (opt_pos o)) (pos_y (opt_pos o))
                    (size_width (opt_size o)) (size_height (opt_size o))
                    (<["type" := VStr "text"]> (<["text" := VStr (opt_text o)]> ∅)))
                 None false)), h).

(** The mock canvas of the unit tests: [createTextNode], [requestSave] and
    [requestFrame] only. *)
Definition testCanvas : Canvas CanvasData :=
  mkCanvas (Some hostCreateTextNode) None None None (Some noop) (Some noop).

(** Direct edge creation throws; the splice primitives work. *)
Definition spliceCanvas : Canvas CanvasData :=
  mkCanvas (Some hostCreateTextNode) (Some createEdgeThrows)
    (Some getData) (Some importData) (Some noop) (Some noop).

(** Direct edge creation throws, the snapshot is there, re-injection throws. *)
Definition rejectingCanvas : Canvas CanvasData :=
  mkCanvas (Some hostCreateTextNode) (Some createEdgeThrows)
    (Some getData) (Some importDataThrows) (Some noop) (Some noop).

(** Direct edge creation throws and there is no snapshot. *)
Definition noDataCanvas : Canvas CanvasData :=
  mkCanvas (Some hostCreateTextNode) (Some createEdgeThrows)
    (Some noData) (Some importData) (Some noop) (Some noop).

(** A canvas object without [requestFrame]. *)
Definition framelessCanvas : Canvas CanvasData :=
  mkCanvas (Some hostCreateTextNode) None (Some getData) (Some importData) (Some noop) None.

Definition world0 : World CanvasData := mkWorld emptyData [].

(** A plain record (no [setText]) and a host node with [setText]. *)
Definition plainNode : CanvasTextNode CanvasData := mkTextNode node1 None false.

Definition hostSetText (content : string) : NodeMethod (H:=CanvasData) unit :=
  fun '(n, h) => (Ok tt, (assign_text content n, h)).

Definition richNode : CanvasTextNode CanvasData :=
  mkTextNode node1 (Some hostSetText) true.

End Mock.

(* ===================================================================== *)
(** * The shortcut capture modal ([ShortcutCaptureModal])                 *)
(* ===================================================================== *)

Module Shortcut.

Record CapturedShortcut : Type := mkShortcut {
  modifiers : list string;
  key : string
}.

(** The fields of a [KeyboardEvent] that the handler reads, and the two
    flags that [preventDefault()] and [stopPropagation()] raise.  A key
    value is the sequence of its code units, so that [.length] is the
    length of the string; the key names and the printable ASCII keys are
    of that kind. *)
Record KeyboardEvent : Type := mkKeyboardEvent {
  evt_key : string;
  shiftKey : bool;
  ctrlKey : bool;
  altKey : bool;
  metaKey : bool;
  defaultPrevented : bool;
  propagationStopped : bool
}.

(** What the handler reads and writes of the open modal: the captured
    shortcut, the text and colour of the display element, and whether the
    confirm button is disabled. *)
Record Modal : Type := mkModal {
  capturedShortcut : option CapturedShortcut;
  displayText : string;
  displayColor : option string;
  confirmDisabled : bool
}.

(** The modal as [onOpen] leaves it. *)
Definition opened : Modal := mkModal None "等待按键..." None true.

(** [ShortcutCaptureModal.formatShortcut]; [String.concat] is
    [Array.prototype.join]. *)
Definition formatShortcut (shortcut : CapturedShortcut) : string :=
  if (length (modifiers shortcut) =? 0)%nat then key shortcut
  else String.concat "+" (modifiers shortcut ++ [key shortcut])%list.

Section Handler.

(** [String.prototype.toUpperCase] *)
Variable toUpperCase : string -> string.

(** The [keydown] listener that [onOpen] registers: the event with its two
    flags raised, and the modal as the listener leaves it. *)
Definition keydownHandler (evt : KeyboardEvent) (modal : Modal) : KeyboardEvent * Modal :=
  let evt' :=
    mkKeyboardEvent (evt_key evt) (shiftKey evt) (ctrlKey evt) (altKey evt) (metaKey evt)
      true true in
  if existsb (String.eqb (evt_key evt)) ["Shift"; "Control"; "Alt"; "Meta"] then
    (evt', modal)
  else
    let modifiers :=
      ((if shiftKey evt then ["Shift"] else [])
       ++ (if ctrlKey evt then ["Ctrl"] else [])
       ++ (if altKey evt then ["Alt"] else [])
       ++ (if metaKey evt then ["Mod"] else []))%list in
    let key := evt_key evt in
    let key := if String.eqb key " " then "Space" else key in
    let key := if (String.length key =? 1)%nat then toUpperCase key else key in
    let captured := mkShortcut modifiers key in
    (evt', mkModal (Some captured) (formatShortcut captured)
             (Some "var(--interactive-accent)") false).

(** The listener run on a sequence of key presses, oldest first. *)
Definition keydowns (evts : list KeyboardEvent) (modal : Modal) : Modal :=
  fold_left (fun m evt => snd (keydownHandler evt m)) evts modal.

End Handler.

(** The key is one of the four modifier keys on their own. *)
Definition lone_modifier (evt : KeyboardEvent) : Prop :=
  In (evt_key evt) ["Shift"; "Control"; "Alt"; "Meta"].

(** Upper-casing of the printable ASCII keys. *)
Definition asciiUpper (s : string) : string :=
  match s with
  | String c EmptyString =>
      let n := Ascii.nat_of_ascii c in
      if ((97 <=? n) && (n <=? 122))%nat
      then String (Ascii.ascii_of_nat (n - 32)) EmptyString else s
  | _ => s
  end.

Definition plainKey (k : string) : KeyboardEvent :=
  mkKeyboardEvent k false false false false false false.

Definition ctrlShiftKey (k : string) : KeyboardEvent :=
  mkKeyboardEvent k true true false false false false.

End Shortcut.

(* ===================================================================== *)
(** * Start and end of the canvas features ([main.ts])                    *)
(* ===================================================================== *)

Module Lifecycle.

Record CanvasSettings : Type := mkCanvasSettings {
  enabled : bool
}.

(** The two settings that the canvas life cycle reads. *)
Record AIPluginSettings : Type := mkSettings {
  canvasSettings : option CanvasSettings;
  debugMode : bool
}.

Section Plugin.

(** The host state, and the objects of the two canvas modules
    ([CanvasUIController], [CanvasMenuHandler]), which are collaborators
    here: their constructors and methods run on the host state and may
    throw. *)
Context {H Controller Handler : Type}.

Record CanvasModules : Type := mkCanvasModules {
  new_CanvasUIController : HostCall (H:=H) Controller;
  new_CanvasMenuHandler : Controller -> HostCall (H:=H) Handler;
  register : Handler -> HostCall (H:=H) unit;
  cleanup : Controller -> HostCall (H:=H) unit;
  unregister : Handler -> HostCall (H:=H) unit
}.

Inductive LifecycleEvent : Type :=
| LNewController
| LNewHandler (c : Controller)
| LRegister (h : Handler)
| LCleanup (c : Controller)
| LUnregister (h : Handler)
| LConsoleLog (msg : string)
| LConsoleError (msg : string) (e : JsError).

(** The plugin object: its settings, the two optional fields, and, as for
    the node manager, the host state and the calls made so far. *)
Record Plugin : Type := mkPlugin {
  settings : AIPluginSettings;
  canvasUIController : option Controller;
  canvasMenuHandler : option Handler;
  p_host : H;
  p_trace : list LifecycleEvent
}.

Definition this : St Plugin Plugin := fun p => (Ok p, p).

Definition log (ev : LifecycleEvent) : St Plugin unit :=
  fun p =>
    (Ok tt, mkPlugin (settings p) (canvasUIController p) (canvasMenuHandler p)
              (p_host p) (p_trace p ++ [ev])).

Definition pcall {A} (ev : LifecycleEvent) (f : HostCall (H:=H) A) : St Plugin A :=
  fun p =>
    let (r, h) := f (p_host p) in
    (r, mkPlugin (settings p) (canvasUIController p) (canvasMenuHandler p)
          h (p_trace p ++ [ev])).

Definition set_canvasUIController (c : Controller) : St Plugin unit :=
  fun p =>
    (Ok tt, mkPlugin (settings p) (Some c) (canvasMenuHandler p) (p_host p) (p_trace p)).

Definition set_canvasMenuHandler (h : Handler) : St Plugin unit :=
  fun p =>
    (Ok tt, mkPlugin (settings p) (canvasUIController p) (Some h) (p_host p) (p_trace p)).

(** [if (this.settings.debugMode) console.log(msg)] *)
Definition debug_log (msg : string) : St Plugin unit :=
  bind this (fun p => if debugMode (settings p) then log (LConsoleLog msg) else ret tt).

(** [this.settings.canvasSettings?.enabled] *)
Definition canvas_enabled (p : Plugin) : bool :=
  match canvasSettings (settings p) with
  | Some cs => enabled cs
  | None => false
  end.

(** The entries that [if (this.settings.debugMode) console.log(msg)] adds
    to the trace. *)
Definition debug_entry (p : Plugin) (msg : string) : list LifecycleEvent :=
  if debugMode (settings p) then [LConsoleLog msg] else [].

Variable modules : CanvasModules.

Local Open Scope js_scope.

(** [MyPlugin.initializeCanvasFeatures] *)
Definition initializeCanvasFeatures : St Plugin unit :=
  try_catch
    (let! p := this in
     if negb (canvas_enabled p) then
       debug_log "[Canvas AI] Canvas 功能已禁用"
     else
       let! c := pcall LNewController (new_CanvasUIController modules) in
       set_canvasUIController c ;;
       let! h := pcall (LNewHandler c) (new_CanvasMenuHandler modules c) in
       set_canvasMenuHandler h ;;
       pcall (LRegister h) (register modules h) ;;
       debug_log "[Canvas AI] Canvas 功能已初始化")
    (fun error => log (LConsoleError "[Canvas AI] 初始化 Canvas 功能失败:" error)).

(** [MyPlugin.cleanupCanvasFeatures] *)
Definition cleanupCanvasFeatures : St Plugin unit :=
  try_catch
    (let! p := this in
     (match canvasUIController p with
      | Some c => pcall (LCleanup c) (cleanup modules c)
      | None => ret tt
      end) ;;
     let! p := this in
     (match canvasMenuHandler p with
      | Some h => pcall (LUnregister h) (unregister modules h)
      | None => ret tt
      end) ;;
     debug_log "[Canvas AI] Canvas 资源已清理")
    (fun error => log (LConsoleError "[Canvas AI] 清理 Canvas 资源失败:" error)).

End Plugin.

Arguments CanvasModules H Controller Handler : clear implicits.
Arguments LifecycleEvent Controller Handler : clear implicits.
Arguments Plugin H Controller Handler : clear implicits.

(** Concrete modules: the host state counts the live registrations; the
    controller is number 1 and the handler number 2. *)
Definition okModules : CanvasModules nat nat nat :=
  mkCanvasModules
    (fun h => (Ok 1%nat, h))
    (fun c h => (Ok 2%nat, h))
    (fun _ h => (Ok tt, S h))
    (fun _ h => (Ok tt, h))
    (fun _ h => (Ok tt, pred h)).

(** The same, except that the controller's [cleanup] throws. *)
Definition cleanupThrows : CanvasModules nat nat nat :=
  mkCanvasModules
    (fun h => (Ok 1%nat, h))
    (fun c h => (Ok 2%nat, h))
    (fun _ h => (Ok tt, S h))
    (fun _ h => (Throw (PlainError "Error" "cleanup failed"), h))
    (fun _ h => (Ok tt, pred h)).

(** The same as [okModules], except that [register] throws. *)
Definition registerThrows : CanvasModules nat nat nat :=
  mkCanvasModules
    (fun h => (Ok 1%nat, h))
    (fun c h => (Ok 2%nat, h))
    (fun _ h => (Throw (PlainError "Error" "register failed"), h))
    (fun _ h => (Ok tt, h))
    (fun _ h => (Ok tt, pred h)).

Definition freshPlugin (on debug : bool) : Plugin nat nat nat :=
  mkPlugin (mkSettings (Some (mkCanvasSettings on)) debug) None None 0%nat [].

(** The plugin once controller 1 and handler 2 are set up and registered. *)
Definition runningPlugin : Plugin nat nat nat :=
  mkPlugin (mkSettings (Some (mkCanvasSettings true)) false) (Some 1%nat) (Some 2%nat) 1%nat [].

End Lifecycle.

(** A host object whose [text] is [null], with nothing else. *)
Definition nullTextNode : CanvasNode :=
  mkNode "n" 0 0 10 10 (<["text" := VNull]> ∅).

(** Further hosts: the host creates the edge itself. *)
Module MockEdges.

Definition plainEdge : CanvasEdge CanvasData := mkEdge "edge-host-1" None None.

Definition edgeSetText (label : string) : HostCall (H:=CanvasData) unit :=
  fun h => (Ok tt, h).

Definition richEdge : CanvasEdge CanvasData := mkEdge "edge-host-2" None (Some edgeSetText).

(** The host's own [createEdge]: it appends a record to its graph and hands
    back an edge object. *)
Definition hostCreateEdge (edge : CanvasEdge CanvasData) (f t : CanvasNode) (s : EdgeSides)
    : HostCall (H:=CanvasData) (option (CanvasEdge CanvasData)) :=
  fun h =>
    (Ok (Some edge),
     mkCanvasData (cd_nodes h)
       (Some (default [] (cd_edges h)
              ++ [mkEdgeData (e_id edge) (n_id f) (Some (fromSide s))
                    (n_id t) (Some (toSide s)) None])%list)).

Definition saveThrows : HostCall (H:=CanvasData) unit :=
  fun h => (Throw (PlainError "TypeError" "getData is not a function"), h).

(** Everything works. *)
Definition workingCanvas (edge : CanvasEdge CanvasData) : Canvas CanvasData :=
  mkCanvas (Some Mock.hostCreateTextNode) (Some (hostCreateEdge edge))
    (Some Mock.getData) (Some Mock.importData) (Some Mock.noop) (Some Mock.noop).

(** The host creates the edge, and then its [requestSave] throws. *)
Definition crashingSaveCanvas : Canvas CanvasData :=
  mkCanvas (Some Mock.hostCreateTextNode) (Some (hostCreateEdge plainEdge))
    (Some Mock.getData) (Some Mock.importData) (Some saveThrows) (Some Mock.noop).

(** A canvas object with no [createTextNode]. *)
Definition noCreateCanvas : Canvas CanvasData :=
  mkCanvas None None (Some Mock.getData) (Some Mock.importData) (Some Mock.noop) (Some Mock.noop).

(** A file node as a plain record (no [setText]). *)
Definition plainFileNode : CanvasTextNode CanvasData := mkTextNode fileTypedNode None false.

Definition plainBareNode : CanvasTextNode CanvasData := mkTextNode bareNode None false.

End MockEdges.

(* ===================================================================== *)
(** * Two statements in the specification's own words                     *)
(* ===================================================================== *)

(** "A node whose type field is present but different is never classified
    as that variant by the structural fallback", for the text variant. *)
Definition present_type_blocks_text_fallback : Prop :=
  forall (node : CanvasNode) (v : JsVal),
    n_props node !! "type" = Some v ->
    v <> VStr "text" ->
    isTextNode node = false.


(* ===================================================================== *)
(** * Properties of the pure part                                         *)
(* ===================================================================== *)

Section Geometry.

Implicit Types fromNode toNode node : CanvasNode.





Lemma js_add_exact (a b : Z) :
  Z.abs (a + b) <= 2 ^ 53 -> js_add (Num a) (Num b) = Num (a + b).
Proof.
  intros Hrange. unfold js_add, round_binary64.
  assert (Hbig : 2 ^ 53 < 2 ^ 1024) by reflexivity.
  destruct (Z.leb_spec (Z.abs (a + b)) (2 ^ 53)) as [_ | Hout]; [| lia].
  destruct (Z.leb_spec (2 ^ 1024) (a + b)) as [Hover | _]; [lia |].
  destruct (Z.leb_spec (a + b) (- 2 ^ 1024)) as [Hunder | _]; [lia | reflexivity].
Qed.

(** C5 (as the code has it).  The two coordinates are sums of binary64
    numbers.  As long as the sums [n.x + ox], [n.y + n.height] and
    [n.y + n.height + oy] lie within [-2^53, 2^53], where integer sums are
    exact, [calculateNodePosition n ox oy] is exactly
    [{x: n.x + ox, y: n.y + n.height + oy}], for negative offsets too, and
    for [oy >= 0] and a node of positive height the resulting [y] is
    strictly greater than [n.y]. *)
Theorem calculateNodePosition_spec node (ox oy : Z) :
  (Z.abs (n_x node + ox) <= 2 ^ 53 ->
   at_x (calculateNodePosition node ox oy) = Num (n_x node + ox))
  /\ (Z.abs (n_y node + n_height node) <= 2 ^ 53 ->
      Z.abs (n_y node + n_height node + oy) <= 2 ^ 53 ->
      at_y (calculateNodePosition node ox oy) = Num (n_y node + n_height node + oy)
      /\ (0 <= oy -> 0 < n_height node ->
          exists y, at_y (calculateNodePosition node ox oy) = Num y /\ y > n_y node)).
Proof.
  unfold calculateNodePosition. cbn [at_x at_y]. split.
  - intros Hx. apply js_add_exact, Hx.
  - intros Hyh Hy. rewrite (js_add_exact _ _ Hyh), (js_add_exact _ _ Hy).
    split; [reflexivity |].
    intros Hoy Hheight. eexists. split; [reflexivity | lia].
Qed.

Lemma calculateNodePosition_spec_witness :
  at_x (calculateNodePosition triggerNode 0 150) = Num 100
  /\ at_y (calculateNodePosition triggerNode 0 150) = Num 350
  /\ at_x (calculateNodePosition triggerNode (-50) (-30)) = Num 50
  /\ exists y, at_y (calculateNodePosition triggerNode 0 0) = Num y /\ y > n_y triggerNode.
Proof.
  split; [| split; [| split]].
  - apply (proj1 (calculateNodePosition_spec triggerNode 0 150)). simpl. lia.
  - apply (proj2 (calculateNodePosition_spec triggerNode 0 150)); simpl; lia.
  - apply (proj1 (calculateNodePosition_spec triggerNode (-50) (-30))). simpl. lia.
  - apply (proj2 (calculateNodePosition_spec triggerNode 0 0)); simpl; lia.
Defined.

(** C5, as worded, fails: for a node at [y = 2^53] with height 1 and the
    offset 0, the sum [2^53 + 1] rounds to [2^53], so the resulting [y] is
    [n.y] itself and not greater. *)
Lemma placement_not_below_far_node :
  0 <= 0 /\ 0 < n_height farNode
  /\ at_y (calculateNodePosition farNode 0 0) = Num (n_y farNode)
  /\ at_y (calculateNodePosition farNode 0 0) <> Num (n_y farNode + n_height farNode + 0).
Proof.
  split; [lia |]. split; [reflexivity |]. split; [reflexivity |].
  vm_compute. discriminate.
Qed.

End Geometry.

Section Taxonomy.

(** C7. Whatever the constructor arguments, a [NodeOperationError] (for
    each of create, update, connect) is retryable, a
    [ContextExtractionError] (for each of its three stages) is not, and a
    [CanvasNotAvailableError] is not. *)
Theorem retryable_matches_taxonomy :
  (forall (operation : Operation) (msg nodeId det : option string),
     noe_retryable (new_NodeOperationError operation msg nodeId det) = true
     /\ noe_operation (new_NodeOperationError operation msg nodeId det) = operation
     /\ retryable (OfNodeOperation (new_NodeOperationError operation msg nodeId det))
        = Some true)
  /\ (forall (stage : Stage) (msg nodeId det : option string),
     cee_retryable (new_ContextExtractionError stage msg nodeId det) = false
     /\ cee_stage (new_ContextExtractionError stage msg nodeId det) = stage
     /\ retryable (OfContextExtraction (new_ContextExtractionError stage msg nodeId det))
        = Some false)
  /\ (forall (msg det : option string),
     cna_retryable (new_CanvasNotAvailableError msg det) = false
     /\ retryable (OfCanvasNotAvailable (new_CanvasNotAvailableError msg det))
        = Some false).
Proof.
  split; [| split].
  - intros operation msg nodeId det. destruct operation; repeat split.
  - intros stage msg nodeId det. destruct stage; repeat split.
  - intros msg det. split; reflexivity.
Qed.

End Taxonomy.

Section ActiveCanvas.

Lemma isCanvasView_tag (v : View) : isCanvasView v = true <-> getViewType v = "canvas".
Proof. unfold isCanvasView. apply String.eqb_eq. Qed.

(** C9. [getActiveCanvas] returns the active view exactly when there is one
    and its type tag is ['canvas'], and [null] in every other workspace
    state, the one without an active view included; being total, it never
    throws. *)
Theorem getActiveCanvas_spec (ws : Workspace) :
  (forall v : View,
     getActiveCanvas ws = Some v <->
     activeView ws = Some v /\ getViewType v = "canvas")
  /\ (getActiveCanvas ws = None <->
      activeView ws = None
      \/ exists v, activeView ws = Some v /\ getViewType v <> "canvas").
Proof.
  unfold getActiveCanvas, getActiveViewOfType.
  destruct (activeView ws) as [a|] eqn:Hact.
  - destruct (isCanvasView a) eqn:Htag.
    + apply isCanvasView_tag in Htag. split.
      * intros v. split.
        -- intros [= <-]. auto.
        -- intros [[= <-] _]. reflexivity.
      * split; [discriminate |].
        intros [Hnone | (v & [= <-] & Hne)]; [discriminate | contradiction].
    + assert (Hne : getViewType a <> "canvas").
      { intros Heq. apply isCanvasView_tag in Heq. congruence. }
      split.
      * intros v. split; [discriminate |].
        intros [[= <-] Heq]. contradiction.
      * split; [| reflexivity]. intros _. right. exists a. auto.
  - split.
    + intros v. split; [discriminate | intros [? _]; discriminate].
    + split; [auto | reflexivity].
Qed.

Lemma getActiveCanvas_spec_witness :
  getActiveCanvas (mkWorkspace (Some canvasView)) = Some canvasView
  /\ getActiveCanvas (mkWorkspace (Some markdownView)) = None
  /\ getActiveCanvas (mkWorkspace None) = None.
Proof.
  split; [| split].
  - apply (proj1 (getActiveCanvas_spec (mkWorkspace (Some canvasView)))).
    split; reflexivity.
  - apply (proj2 (getActiveCanvas_spec (mkWorkspace (Some markdownView)))).
    right. exists markdownView. split; [reflexivity | discriminate].
  - apply (proj2 (getActiveCanvas_spec (mkWorkspace None))).
    left. reflexivity.
Defined.

End ActiveCanvas.

(* ===================================================================== *)
(** * Properties of the variant guards                                    *)
(* ===================================================================== *)

Section Guards.

Implicit Types (node : CanvasNode) (v : JsVal).

Lemma is_lit_true v (lit : string) : is_lit v lit = true <-> v = VStr lit.
Proof.
  destruct v; simpl; try (split; [discriminate | intros [=]]).
  rewrite String.eqb_eq. split; [intros -> | intros [=]]; auto.
Qed.

Lemma typeof_string v :
  String.eqb (typeof v) "string" = true <-> exists s, v = VStr s.
Proof.
  destruct v; simpl; split; try discriminate;
    try (intros [s' [=]]); eauto.
Qed.

Lemma typeof_undefined v :
  String.eqb (typeof v) "undefined" = true <-> v = VUndefined.
Proof. destruct v; simpl; split; try discriminate; auto. Qed.

(** A literal of the four variants is truthy, so a falsy discriminator is
    none of them. *)
Lemma falsy_is_no_literal v (lit : string) :
  truthy v = false -> lit <> "" -> is_lit v lit = false.
Proof.
  intros Hfalsy Hlit. destruct v; simpl in *; try reflexivity.
  apply negb_false_iff, String.eqb_eq in Hfalsy. subst s.
  apply String.eqb_neq. auto.
Qed.

Lemma absent_is_falsy node :
  n_props node !! "type" = None -> truthy (field node "type") = false.
Proof. unfold field. intros ->. reflexivity. Qed.

Lemma isTextNode_truthy node :
  truthy (field node "type") = true ->
  isTextNode node = is_lit (field node "type") "text".
Proof. unfold isTextNode. intros ->. simpl. apply orb_false_r. Qed.

Lemma isLinkNode_truthy node :
  truthy (field node "type") = true ->
  isLinkNode node = is_lit (field node "type") "link".
Proof. unfold isLinkNode. intros ->. simpl. apply orb_false_r. Qed.

Lemma isFileNode_truthy node :
  truthy (field node "type") = true ->
  isFileNode node = is_lit (field node "type") "file".
Proof. unfold isFileNode. intros ->. destruct (is_lit _ _); reflexivity. Qed.

Lemma isGroupNode_truthy node :
  truthy (field node "type") = true ->
  isGroupNode node = is_lit (field node "type") "group".
Proof. unfold isGroupNode. intros ->. destruct (is_lit _ _); reflexivity. Qed.

Lemma isTextNode_falsy node :
  truthy (field node "type") = false ->
  isTextNode node = String.eqb (typeof (field node "text")) "string".
Proof.
  intros Hf. unfold isTextNode.
  rewrite (falsy_is_no_literal _ "text" Hf) by discriminate.
  rewrite Hf. reflexivity.
Qed.

Lemma isLinkNode_falsy node :
  truthy (field node "type") = false ->
  isLinkNode node = String.eqb (typeof (field node "url")) "string".
Proof.
  intros Hf. unfold isLinkNode.
  rewrite (falsy_is_no_literal _ "link" Hf) by discriminate.
  rewrite Hf. reflexivity.
Qed.

Lemma isFileNode_falsy node :
  truthy (field node "type") = false ->
  (isFileNode node = true <->
   (exists s, field node "file" = VStr s)
   \/ (exists o s, field node "file" = VObj o /\ o !! "path" = Some (VStr s))).
Proof.
  intros Hf. unfold isFileNode.
  rewrite (falsy_is_no_literal _ "file" Hf) by discriminate.
  rewrite Hf. cbv zeta.
  split.
  - destruct (String.eqb (typeof (field node "file")) "string") eqn:Hstr.
    + intros _. left. apply typeof_string, Hstr.
    + destruct (field node "file") as [ | | b | z | s | | o ]; simpl;
        rewrite ?andb_false_r; try discriminate.
      intros Hpath. right. exists o.
      destruct (typeof_string (default VUndefined (o !! "path"))) as [Hp _].
      destruct Hp as [s Hs].
      { clear Hstr.
        destruct (String.eqb (typeof (default VUndefined (o !! "path"))) "string");
          [reflexivity | discriminate]. }
      exists s. split; [reflexivity |].
      destruct (o !! "path") as [p|]; simpl in Hs; [congruence | discriminate].
  - intros [[s ->] | (o & s & -> & Hpath)]; [reflexivity |].
    simpl. rewrite Hpath. reflexivity.
Qed.

Lemma isGroupNode_falsy node :
  truthy (field node "type") = false ->
  (isGroupNode node = true <->
   field node "text" = VUndefined /\ field node "file" = VUndefined
   /\ field node "url" = VUndefined).
Proof.
  intros Hf. unfold isGroupNode.
  rewrite (falsy_is_no_literal _ "group" Hf) by discriminate.
  rewrite Hf. rewrite !andb_true_iff, !typeof_undefined. tauto.
Qed.

(** C8 (as the code has it).  The discriminator comes first: a node whose
    [type] is one of the four literals is of that variant whatever its
    other fields are; a node whose [type] is truthy is of a variant only
    if [type] is that variant's literal, the structural test is not
    reached; and a node without [type] (more generally: with a falsy
    [type], such as the empty string) is a text node iff [text] is a
    string, a file node iff [file] is a string or an object with a string
    [path], a link node iff [url] is a string, and a group iff [text],
    [file] and [url] are all undefined. *)
Theorem guards_follow_discriminator node :
  ((field node "type" = VStr "text" -> isTextNode node = true)
   /\ (field node "type" = VStr "file" -> isFileNode node = true)
   /\ (field node "type" = VStr "link" -> isLinkNode node = true)
   /\ (field node "type" = VStr "group" -> isGroupNode node = true))
  /\ (truthy (field node "type") = true ->
      (isTextNode node = true <-> field node "type" = VStr "text")
      /\ (isFileNode node = true <-> field node "type" = VStr "file")
      /\ (isLinkNode node = true <-> field node "type" = VStr "link")
      /\ (isGroupNode node = true <-> field node "type" = VStr "group"))
  /\ (n_props node !! "type" = None \/ truthy (field node "type") = false ->
      (isTextNode node = true <-> exists s, field node "text" = VStr s)
      /\ (isFileNode node = true <->
          (exists s, field node "file" = VStr s)
          \/ (exists o s, field node "file" = VObj o /\ o !! "path" = Some (VStr s)))
      /\ (isLinkNode node = true <-> exists s, field node "url" = VStr s)
      /\ (isGroupNode node = true <->
          field node "text" = VUndefined /\ field node "file" = VUndefined
          /\ field node "url" = VUndefined)).
Proof.
  split; [| split].
  - repeat split; intros Hty.
    + rewrite isTextNode_truthy by (rewrite Hty; reflexivity).
      apply is_lit_true, Hty.
    + rewrite isFileNode_truthy by (rewrite Hty; reflexivity).
      apply is_lit_true, Hty.
    + rewrite isLinkNode_truthy by (rewrite Hty; reflexivity).
      apply is_lit_true, Hty.
    + rewrite isGroupNode_truthy by (rewrite Hty; reflexivity).
      apply is_lit_true, Hty.
  - intros Ht.
    rewrite (isTextNode_truthy _ Ht), (isFileNode_truthy _ Ht),
      (isLinkNode_truthy _ Ht), (isGroupNode_truthy _ Ht).
    repeat split; apply is_lit_true.
  - intros Hno.
    assert (Hf : truthy (field node "type") = false).
    { destruct Hno as [Habs | Hf]; [apply absent_is_falsy, Habs | exact Hf]. }
    split; [| split; [| split]].
    + rewrite (isTextNode_falsy _ Hf). apply typeof_string.
    + apply isFileNode_falsy, Hf.
    + rewrite (isLinkNode_falsy _ Hf). apply typeof_string.
    + apply isGroupNode_falsy, Hf.
Qed.

Lemma guards_follow_discriminator_witness :
  isTextNode node1 = true
  /\ (isFileNode node1 = true <-> field node1 "type" = VStr "file")
  /\ (isFileNode tfileNode = true <->
      (exists s, field tfileNode "file" = VStr s)
      \/ (exists o s, field tfileNode "file" = VObj o /\ o !! "path" = Some (VStr s)))
  /\ (isTextNode emptyTypeNode = true <-> exists s, field emptyTypeNode "text" = VStr s).
Proof.
  split; [| split; [| split]].
  - apply (proj1 (proj1 (guards_follow_discriminator node1))). reflexivity.
  - apply (proj1 (proj2 (guards_follow_discriminator node1))). reflexivity.
  - apply (proj2 (proj2 (guards_follow_discriminator tfileNode))).
    left. reflexivity.
  - apply (proj2 (proj2 (guards_follow_discriminator emptyTypeNode))).
    right. reflexivity.
Defined.

(** C8, as worded, fails: the empty string is a [type] that is present and
    is not ['text'], and the node is classified as a text node by the
    structural test all the same, because the guard asks [!node.type]. *)
Lemma present_type_blocks_text_fallback_fails :
  ~ present_type_blocks_text_fallback.
Proof.
  intros Hclaim.
  specialize (Hclaim emptyTypeNode (VStr "")).
  assert (Hguard : isTextNode emptyTypeNode = true) by reflexivity.
  rewrite Hclaim in Hguard; [discriminate | reflexivity | discriminate].
Qed.

(** C10. Without a discriminator the guards overlap: a node whose [text]
    and [url] are both strings is a text node and a link node, and one
    whose [text] and [file] are both strings is a text node and a file
    node; each guard looks at its own content field only. *)
Theorem structural_guards_overlap :
  (n_props textAndUrlNode !! "type" = None
   /\ isTextNode textAndUrlNode = true /\ isLinkNode textAndUrlNode = true)
  /\ (n_props textAndFileNode !! "type" = None
      /\ isTextNode textAndFileNode = true /\ isFileNode textAndFileNode = true)
  /\ (forall node (s u : string),
        n_props node !! "type" = None ->
        field node "text" = VStr s -> field node "url" = VStr u ->
        isTextNode node = true /\ isLinkNode node = true)
  /\ (forall node (s f : string),
        n_props node !! "type" = None ->
        field node "text" = VStr s -> field node "file" = VStr f ->
        isTextNode node = true /\ isFileNode node = true).
Proof.
  split; [| split; [| split]].
  - repeat split.
  - repeat split.
  - intros node s u Habs Htext Hurl.
    pose proof (absent_is_falsy _ Habs) as Hf.
    rewrite (isTextNode_falsy _ Hf), (isLinkNode_falsy _ Hf), Htext, Hurl.
    split; reflexivity.
  - intros node s f Habs Htext Hfile.
    pose proof (absent_is_falsy _ Habs) as Hf.
    rewrite (isTextNode_falsy _ Hf), Htext. split; [reflexivity |].
    apply (isFileNode_falsy _ Hf). left. eauto.
Qed.

Lemma structural_guards_overlap_witness :
  isTextNode textAndUrlNode = true /\ isLinkNode textAndUrlNode = true.
Proof.
  apply (proj1 (proj2 (proj2 structural_guards_overlap))
           textAndUrlNode "hello" "https://example.org"); reflexivity.
Defined.

End Guards.

(* ===================================================================== *)
(** * Properties of the node/edge mutator                                 *)
(* ===================================================================== *)

Section ManagerProperties.

Context {H : Type}.
Variable Date_now : H -> Z.
Variable Math_random_suffix : H -> string * H.

Implicit Types (canvas : Canvas H) (w : World H) (fromNode toNode : CanvasNode).

(** Unfolding of the monad's plumbing. *)
Ltac step :=
  cbv beta iota zeta delta
    [bind ret throw emit call invoke deref try_catch on_world call_method
     mutate this_node read_clock read_random option_map] in *;
  cbn [w_host w_trace fst snd] in *.

(** C6. [createTextNode] hands the host's primitive exactly the position
    [{x, y}], the size [{width, height}] and the text it was given, with
    [focus: false] and [save: false], and nothing else is called on the
    host.  What the host returns is returned as it is; if that node has no
    [getData], one [console.error] diagnostic is logged, nothing is
    thrown, and the node is returned all the same.  (If the primitive
    itself throws, that exception is the outcome.) *)
Theorem createTextNode_spec canvas (content : string) (x y width height : Z) w
    (primitive : CreateNodeOptions -> HostCall (option (CanvasTextNode H)))
    (outcome : Outcome (option (CanvasTextNode H))) (h' : H) :
  let options := mkCreateNodeOptions (mkPos x y) (mkSize width height) content false false in
  c_createTextNode canvas = Some primitive ->
  primitive options (w_host w) = (outcome, h') ->
  exists diagnostics,
    createTextNode canvas content x y width height w
      = (outcome, mkWorld h' (w_trace w ++ EvCreateTextNode options :: diagnostics))
    /\ match outcome with
       | Ok (Some n) =>
           if tn_getData n then diagnostics = []
           else exists tag, diagnostics = [EvConsoleError tag (LogNode (tn_node n))]
       | Ok None | Throw _ => diagnostics = []
       end.
Proof.
  intros options Hprim Hret. subst options. unfold createTextNode.
  rewrite Hprim. step. rewrite Hret.
  destruct outcome as [[n|]|e]; [destruct (tn_getData n) eqn:Hcap | |]; simpl.
  - exists []. split; reflexivity.
  - eexists [_]. split; [| eexists; reflexivity].
    rewrite <- app_assoc. reflexivity.
  - exists []. split; reflexivity.
  - exists []. split; reflexivity.
Qed.

(** C4 (as the code has it).  [updateNodeContent] sets the node's text to
    [content]: through the node's own [setText] when the node has one (the
    method is called once, with [content], and nothing is assigned
    directly), by assignment to the [text] field otherwise.  Afterwards it
    calls [requestFrame] if the canvas object has such a method and the
    text step returned normally; without that method no frame is
    requested.  [requestSave] is never called. *)
Theorem updateNodeContent_spec canvas (content : string) (node : CanvasTextNode H) w :
  let result := updateNodeContent canvas content (node, w) in
  let node' := fst (snd result) in
  let w' := snd (snd result) in
  exists added,
    w_trace w' = (w_trace w ++ added)%list
    /\ ~ In EvRequestSave added
    /\ (tn_setText node = None ->
        tn_node node' = assign_text content (tn_node node)
        /\ field (tn_node node') "text" = VStr content
        /\ (forall c, ~ In (EvNodeSetText c) added)
        /\ (forall requestFrame, c_requestFrame canvas = Some requestFrame ->
              added = [EvRequestFrame]
              /\ fst result = fst (requestFrame (w_host w))
              /\ w_host w' = snd (requestFrame (w_host w))))
    /\ (forall setText, tn_setText node = Some setText ->
        let after := setText content (tn_node node, w_host w) in
        tn_node node' = fst (snd after)
        /\ (forall e, fst after = Throw e ->
              fst result = Throw e /\ added = [EvNodeSetText content])
        /\ (fst after = Ok tt ->
              forall requestFrame, c_requestFrame canvas = Some requestFrame ->
              added = [EvNodeSetText content; EvRequestFrame]
              /\ fst result = fst (requestFrame (snd (snd after)))))
    /\ (c_requestFrame canvas = None -> ~ In EvRequestFrame added).
Proof.
  intros result node' w'. subst node' w' result.
  unfold updateNodeContent. step.
  destruct (tn_setText node) as [setText|] eqn:Hset; step.
  - destruct (setText content (tn_node node, w_host w)) as [[[]|e] [n h]] eqn:Hafter; step.
    + destruct (c_requestFrame canvas) as [requestFrame|] eqn:Hframe; step.
      * destruct (requestFrame h) as [r h2] eqn:Hrf; step.
        exists [EvNodeSetText content; EvRequestFrame].
        rewrite <- app_assoc.
        split; [reflexivity |].
        split; [intros [|[|[]]]; discriminate |].
        split; [discriminate |].
        split.
        -- intros st [= <-]. rewrite Hafter. cbn.
           split; [reflexivity |]. split; [discriminate |].
           intros _ rf [= <-]. rewrite Hrf. auto.
        -- discriminate.
      * exists [EvNodeSetText content].
        split; [reflexivity |].
        split; [intros [|[]]; discriminate |].
        split; [discriminate |].
        split.
        -- intros st [= <-]. rewrite Hafter. cbn.
           split; [reflexivity |]. split; [discriminate |].
           intros _ rf. discriminate.
        -- intros _ [|[]]; discriminate.
    + exists [EvNodeSetText content].
      split; [reflexivity |].
      split; [intros [|[]]; discriminate |].
      split; [discriminate |].
      split.
      * intros st [= <-]. rewrite Hafter. cbn.
        split; [reflexivity |]. split.
        -- intros e' [= <-]. auto.
        -- discriminate.
      * intros _ [|[]]; discriminate.
  - assert (Htext : field (assign_text content (tn_node node)) "text" = VStr content).
    { unfold field, assign_text, with_props. cbn [n_props].
      rewrite lookup_insert_eq. reflexivity. }
    destruct (c_requestFrame canvas) as [requestFrame|] eqn:Hframe; step.
    + destruct (requestFrame (w_host w)) as [r h2] eqn:Hrf; step.
      exists [EvRequestFrame].
      split; [reflexivity |].
      split; [intros [|[]]; discriminate |].
      split.
      * intros _. split; [reflexivity |]. split; [exact Htext |].
        split; [intros c [|[]]; discriminate |].
        intros rf [= <-]. rewrite Hrf. auto.
      * split; discriminate.
    + exists [].
      split; [symmetry; apply app_nil_r |].
      split; [intros [] |].
      split.
      * intros _. split; [reflexivity |]. split; [exact Htext |].
        split; [intros c [] | discriminate].
      * split; [discriminate | intros _ []].
Qed.

Lemma edge_prefix (rest : string) : String.prefix "edge-" ("edge-" +:+ rest) = true.
Proof. destruct rest; reflexivity. Qed.

Lemma createEdge_after_direct_failure canvas fromNode toNode label w error w1 :
  createEdge_direct canvas fromNode toNode label w = (Throw error, w1) ->
  createEdge Date_now Math_random_suffix canvas fromNode toNode label w =
    match createEdge_fallback Date_now Math_random_suffix canvas fromNode toNode label
            (mkWorld (w_host w1) (w_trace w1 ++ [direct_failed error])) with
    | (Ok _, w2) => (Ok tt, w2)
    | (Throw fallbackError, w2) =>
        (Ok tt, mkWorld (w_host w2)
                  (w_trace w2 ++ [fallback_failed fallbackError; cannot_connect]))
    end.
Proof.
  intros Hdirect. unfold createEdge, try_catch at 1. rewrite Hdirect.
  unfold bind at 1, emit at 1, try_catch.
  destruct (createEdge_fallback _ _ _ _ _ _ _) as [[[]|e2] w2]; [reflexivity |].
  step. rewrite <- app_assoc. reflexivity.
Qed.

(** C1 (as the code has it).  When the direct path throws and [getData]
    yields a snapshot, the splice is attempted and [createEdge] returns
    normally.  [importData], if the canvas has it, is called exactly once,
    with the snapshot's nodes as they are and its edges followed by exactly
    one new record, whose id is ["edge-" + timestamp + "-" + random suffix]
    and whose [fromNode] and [toNode] are the ids of the two nodes given.
    If that call returns normally, the next call is [requestFrame], and
    after it only the success line is logged.  If [importData] is missing
    or throws, or [requestFrame] is missing or throws, that error is logged
    with [console.error] and the notice is shown instead, and nothing
    further is called.  Nothing after the direct path calls
    [requestSave]. *)
Theorem createEdge_fallback_splice canvas fromNode toNode (label : option string) w
    (error : JsError) (w1 : World H)
    (getData : HostCall (option CanvasData)) (data : CanvasData) (h2 : H) :
  createEdge_direct canvas fromNode toNode label w = (Throw error, w1) ->
  c_getData canvas = Some getData ->
  getData (snd (Math_random_suffix (w_host w1))) = (Ok (Some data), h2) ->
  exists (newEdge : EdgeData),
    let newData :=
      mkCanvasData (cd_nodes data) (Some (default [] (cd_edges data) ++ [newEdge])%list) in
    let succeeded :=
      EvConsoleLog "[Canvas AI] 连线创建成功 (Data-Driven)" (LogEdge newEdge) in
    ed_id newEdge =
      "edge-" +:+ render_number (Date_now (w_host w1)) +:+ "-"
      +:+ fst (Math_random_suffix (w_host w1))
    /\ String.prefix "edge-" (ed_id newEdge) = true
    /\ ed_fromNode newEdge = n_id fromNode
    /\ ed_toNode newEdge = n_id toNode
    /\ cd_nodes newData = cd_nodes data
    /\ (c_importData canvas = None ->
        createEdge Date_now Math_random_suffix canvas fromNode toNode label w =
          (Ok tt,
           mkWorld h2
             (w_trace w1
              ++ [direct_failed error; fallback_started; EvGetData;
                  fallback_failed (TypeError "canvas.importData"); cannot_connect])%list))
    /\ (forall importData : CanvasData -> HostCall unit,
        c_importData canvas = Some importData ->
        exists (tail : list Event) (w2 : World H),
          createEdge Date_now Math_random_suffix canvas fromNode toNode label w = (Ok tt, w2)
          /\ w_trace w2 =
               (w_trace w1
                ++ [direct_failed error; fallback_started; EvGetData; EvImportData newData]
                ++ tail)%list
          /\ ~ In EvRequestSave tail
          /\ (forall d, ~ In (EvImportData d) tail)
          /\ (forall e h3,
                importData newData h2 = (Throw e, h3) ->
                tail = [fallback_failed e; cannot_connect] /\ w_host w2 = h3)
          /\ (forall h3,
                importData newData h2 = (Ok tt, h3) ->
                (c_requestFrame canvas = None ->
                 tail = [fallback_failed (TypeError "canvas.requestFrame"); cannot_connect]
                 /\ w_host w2 = h3)
                /\ (forall requestFrame : HostCall unit,
                      c_requestFrame canvas = Some requestFrame ->
                      (exists rest, tail = EvRequestFrame :: rest)
                      /\ (forall e h4,
                            requestFrame h3 = (Throw e, h4) ->
                            tail = [EvRequestFrame; fallback_failed e; cannot_connect]
                            /\ w_host w2 = h4)
                      /\ (forall h4,
                            requestFrame h3 = (Ok tt, h4) ->
                            tail = [EvRequestFrame; succeeded] /\ w_host w2 = h4)))).
Proof.
  intros Hdirect Hget Hsnap.
  rewrite (createEdge_after_direct_failure _ _ _ _ _ _ _ Hdirect).
  unfold createEdge_fallback. step.
  destruct (Math_random_suffix (w_host w1)) as [suffix h1] eqn:Hrand; step.
  rewrite Hget; step. rewrite Hsnap; step.
  exists (mkEdgeData ("edge-" +:+ render_number (Date_now (w_host w1)) +:+ "-" +:+ suffix)
            (n_id fromNode) (Some (fromSide (determineEdgeSides fromNode toNode)))
            (n_id toNode) (Some (toSide (determineEdgeSides fromNode toNode)))
            (Some (or_default label ""))).
  cbn [ed_id ed_fromNode ed_toNode cd_nodes]. cbv zeta.
  rewrite edge_prefix.
  repeat (split; [reflexivity |]).
  split.
  - intros Hnone. rewrite Hnone; step. rewrite <- !app_assoc. reflexivity.
  - intros importData Himp. rewrite Himp; step.
    match goal with
    | |- context [importData ?d h2] => set (newData := d)
    end.
    destruct (importData newData h2) as [[[]|e3] h3] eqn:Himport; step.
    + destruct (c_requestFrame canvas) as [requestFrame|] eqn:Hframe; step.
      * destruct (requestFrame h3) as [[[]|e4] h4] eqn:Hrf; step.
        -- eexists [EvRequestFrame; _], _. rewrite <- !app_assoc.
           split; [reflexivity |]. split; [reflexivity |].
           split; [intros [|[|[]]]; discriminate |].
           split; [intros d [|[|[]]]; discriminate |].
           split; [intros e h3' [=] |].
           intros h3' [= <-]. split; [discriminate |].
           intros rf [= <-]. split; [eauto |]. rewrite Hrf.
           split; [intros e h4' [=] | intros h4' [= <-]; split; reflexivity].
        -- eexists [EvRequestFrame; _; _], _. rewrite <- !app_assoc.
           split; [reflexivity |]. split; [reflexivity |].
           split; [intros [|[|[|[]]]]; discriminate |].
           split; [intros d [|[|[|[]]]]; discriminate |].
           split; [intros e h3' [=] |].
           intros h3' [= <-]. split; [discriminate |].
           intros rf [= <-]. split; [eauto |]. rewrite Hrf.
           split; [intros e h4' [= <- <-]; split; reflexivity | intros h4' [=]].
      * eexists [_; _], _. rewrite <- !app_assoc.
        split; [reflexivity |]. split; [reflexivity |].
        split; [intros [|[|[]]]; discriminate |].
        split; [intros d [|[|[]]]; discriminate |].
        split; [intros e h3' [=] |].
        intros h3' [= <-]. split; [intros _; split; reflexivity |].
        intros rf. discriminate.
    + eexists [_; _], _. rewrite <- !app_assoc.
      split; [reflexivity |]. split; [reflexivity |].
      split; [intros [|[|[]]]; discriminate |].
      split; [intros d [|[|[]]]; discriminate |].
      split; [intros e h3' [= <- <-]; split; reflexivity |].
      intros h3' [=].
Qed.


End ManagerProperties.

(* ===================================================================== *)
(** * The mutator on the concrete hosts                                   *)
(* ===================================================================== *)

Section Scenarios.

Lemma createTextNode_spec_witness :
  exists diagnostics,
    createTextNode Mock.testCanvas "Test content" 100 200 400 200 Mock.world0
      = (Ok (Some (mkTextNode
                     (mkNode "node-1700000000000" 100 200 400 200
                        (<["type" := VStr "text"]> (<["text" := VStr "Test content"]> ∅)))
                     None false)),
         mkWorld Mock.emptyData
           ([] ++ EvCreateTextNode
                    (mkCreateNodeOptions (mkPos 100 200) (mkSize 400 200)
                       "Test content" false false) :: diagnostics)).
Proof.
  destruct (createTextNode_spec Mock.testCanvas "Test content" 100 200 400 200
              Mock.world0 Mock.hostCreateTextNode _ Mock.emptyData
              eq_refl eq_refl) as (diagnostics & Hrun & _).
  exists diagnostics. exact Hrun.
Defined.

Lemma updateNodeContent_spec_witness :
  field (tn_node (fst (snd (updateNodeContent Mock.spliceCanvas "Updated content"
                              (Mock.plainNode, Mock.world0))))) "text"
    = VStr "Updated content"
  /\ tn_node (fst (snd (updateNodeContent Mock.spliceCanvas "Hello via setText"
                          (Mock.richNode, Mock.world0))))
     = assign_text "Hello via setText" node1.
Proof.
  split.
  - destruct (updateNodeContent_spec Mock.spliceCanvas "Updated content"
                Mock.plainNode Mock.world0) as (added & _ & _ & Hplain & _).
    apply Hplain. reflexivity.
  - destruct (updateNodeContent_spec Mock.spliceCanvas "Hello via setText"
                Mock.richNode Mock.world0) as (added & _ & _ & _ & Hrich & _).
    apply (Hrich Mock.hostSetText). reflexivity.
Defined.

(** C4, as worded, fails: on a canvas object that has no [requestFrame] the
    text is updated and no render invalidation is requested. *)
Lemma frame_not_always_requested :
  fst (updateNodeContent Mock.framelessCanvas "Updated content"
         (Mock.plainNode, Mock.world0)) = Ok tt
  /\ field (tn_node (fst (snd (updateNodeContent Mock.framelessCanvas "Updated content"
                                 (Mock.plainNode, Mock.world0))))) "text"
     = VStr "Updated content"
  /\ ~ In EvRequestFrame
         (w_trace (snd (snd (updateNodeContent Mock.framelessCanvas "Updated content"
                               (Mock.plainNode, Mock.world0))))).
Proof.
  split; [reflexivity | split; [reflexivity |]].
  intros Hin. vm_compute in Hin. exact Hin.
Qed.

Lemma createEdge_fallback_splice_witness :
  exists newEdge tail w2,
    createEdge Mock.now Mock.random Mock.spliceCanvas node1 node2 None Mock.world0
      = (Ok tt, w2)
    /\ String.prefix "edge-" (ed_id newEdge) = true
    /\ ed_fromNode newEdge = "node-1"
    /\ ed_toNode newEdge = "node-2"
    /\ (exists rest, tail = EvRequestFrame :: rest)
    /\ tail = [EvRequestFrame;
               EvConsoleLog "[Canvas AI] 连线创建成功 (Data-Driven)" (LogEdge newEdge)].
Proof.
  destruct (createEdge_fallback_splice Mock.now Mock.random Mock.spliceCanvas
              node1 node2 None Mock.world0
              (PlainError "TypeError" "Cannot read properties of undefined")
              (mkWorld Mock.emptyData
                 [EvCreateEdge node1 node2 (mkSides SideBottom SideTop)])
              Mock.getData Mock.emptyData Mock.emptyData
              eq_refl eq_refl eq_refl)
    as (newEdge & _ & Hprefix & Hfrom & Hto & _ & _ & Hsome).
  destruct (Hsome Mock.importData eq_refl)
    as (tail & w2 & Hrun & _ & _ & _ & _ & Hok).
  destruct (Hok _ eq_refl) as (_ & Hframe).
  destruct (Hframe Mock.noop eq_refl) as (Hnext & _ & Hdone).
  exists newEdge, tail, w2.
  split; [exact Hrun |]. split; [exact Hprefix |].
  split; [exact Hfrom |]. split; [exact Hto |].
  split; [exact Hnext |].
  exact (proj1 (Hdone _ eq_refl)).
Defined.

(** C1, as worded, fails: the direct path throws and the snapshot is there,
    but the host rejects the re-injection; [createEdge] then shows the
    notice and never requests a frame. *)
Lemma splice_without_frame_request :
  createEdge_direct Mock.rejectingCanvas node1 node2 None Mock.world0
    = (Throw (PlainError "TypeError" "Cannot read properties of undefined"),
       mkWorld Mock.emptyData [EvCreateEdge node1 node2 (mkSides SideBottom SideTop)])
  /\ c_getData Mock.rejectingCanvas = Some Mock.getData
  /\ Mock.getData Mock.emptyData = (Ok (Some Mock.emptyData), Mock.emptyData)
  /\ fst (createEdge Mock.now Mock.random Mock.rejectingCanvas node1 node2 None Mock.world0)
     = Ok tt
  /\ ~ In EvRequestFrame
         (w_trace (snd (createEdge Mock.now Mock.random Mock.rejectingCanvas
                          node1 node2 None Mock.world0))).
Proof.
  repeat (split; [reflexivity |]).
  intros Hin. vm_compute in Hin.
  repeat (destruct Hin as [Hin | Hin]; [discriminate Hin |]). exact Hin.
Qed.



End Scenarios.

(* ===================================================================== *)
(** * Further properties: geometry, guards, taxonomy                      *)
(* ===================================================================== *)

Section MoreGeometry.

Implicit Types a b node : CanvasNode.

(** X1. The two anchors always face each other: the result is one of
    right/left, left/right, bottom/top, top/bottom. *)
Theorem determineEdgeSides_faces (a b : CanvasNode) :
  determineEdgeSides a b = mkSides SideRight SideLeft
  \/ determineEdgeSides a b = mkSides SideLeft SideRight
  \/ determineEdgeSides a b = mkSides SideBottom SideTop
  \/ determineEdgeSides a b = mkSides SideTop SideBottom.
Proof.
  unfold determineEdgeSides.
  destruct (Z.abs _ >? Z.abs _); [destruct (_ >? 0) | destruct (_ >? 0)]; auto.
Qed.

(** X2. For two nodes at different positions, the edge drawn the other way
    round uses the same two anchors, exchanged. *)
Theorem determineEdgeSides_reverse (a b : CanvasNode) :
  n_x a <> n_x b \/ n_y a <> n_y b ->
  determineEdgeSides b a =
    mkSides (toSide (determineEdgeSides a b)) (fromSide (determineEdgeSides a b)).
Proof.
  intros Hdiff. unfold determineEdgeSides.
  replace (Z.abs (n_x a - n_x b)) with (Z.abs (n_x b - n_x a)) by lia.
  replace (Z.abs (n_y a - n_y b)) with (Z.abs (n_y b - n_y a)) by lia.
  destruct (Z.gtb_spec (Z.abs (n_x b - n_x a)) (Z.abs (n_y b - n_y a))).
  - destruct (Z.gtb_spec (n_x a - n_x b) 0), (Z.gtb_spec (n_x b - n_x a) 0);
      simpl; try reflexivity; lia.
  - destruct (Z.gtb_spec (n_y a - n_y b) 0), (Z.gtb_spec (n_y b - n_y a) 0);
      simpl; try reflexivity; lia.
Qed.

(** X3. Within the range in which the sums are exact (position, height
    and offsets of the trigger all within [-2^51, 2^51]), a node placed
    where [calculateNodePosition] says is joined to its trigger bottom to
    top as long as the horizontal offset does not exceed the vertical
    distance [height + offsetY] and that distance is positive; with a
    larger horizontal offset the edge leaves sideways, to the right for a
    positive offset and to the left for a negative one. *)
Theorem placed_node_edge (trigger response : CanvasNode) (offsetX offsetY : Z) :
  Z.abs (n_x trigger) <= 2 ^ 51 -> Z.abs (n_y trigger) <= 2 ^ 51 ->
  Z.abs (n_height trigger) <= 2 ^ 51 ->
  Z.abs offsetX <= 2 ^ 51 -> Z.abs offsetY <= 2 ^ 51 ->
  calculateNodePosition trigger offsetX offsetY
    = mkPlacement (Num (n_x response)) (Num (n_y response)) ->
  (Z.abs offsetX <= n_height trigger + offsetY -> 0 < n_height trigger + offsetY ->
   determineEdgeSides trigger response = mkSides SideBottom SideTop)
  /\ (Z.abs offsetX > Z.abs (n_height trigger + offsetY) ->
      determineEdgeSides trigger response =
        if offsetX >? 0 then mkSides SideRight SideLeft else mkSides SideLeft SideRight).
Proof.
  intros Bx By Bh Box Boy Hplaced.
  assert (Hsmall : 2 ^ 53 = 4 * 2 ^ 51) by reflexivity.
  unfold calculateNodePosition in Hplaced.
  rewrite (js_add_exact (n_x trigger) offsetX) in Hplaced by lia.
  rewrite (js_add_exact (n_y trigger) (n_height trigger)) in Hplaced by lia.
  rewrite (js_add_exact (n_y trigger + n_height trigger) offsetY) in Hplaced by lia.
  injection Hplaced as Hx Hy.
  unfold determineEdgeSides. rewrite <- Hx, <- Hy.
  replace (n_x trigger + offsetX - n_x trigger) with offsetX by lia.
  replace (n_y trigger + n_height trigger + offsetY - n_y trigger)
    with (n_height trigger + offsetY) by lia.
  split.
  - intros Hle Hpos.
    destruct (Z.gtb_spec (Z.abs offsetX) (Z.abs (n_height trigger + offsetY))); [lia |].
    destruct (Z.gtb_spec (n_height trigger + offsetY) 0); [reflexivity | lia].
  - intros Hgt.
    destruct (Z.gtb_spec (Z.abs offsetX) (Z.abs (n_height trigger + offsetY)));
      [reflexivity | lia].
Qed.

End MoreGeometry.

Section MoreGuards.

Implicit Types (node : CanvasNode).

(** X4. With a truthy discriminator the four guards exclude one another,
    and a discriminator that is none of the four literals satisfies none
    of them, whatever content fields the node has. *)
Theorem typed_guards_exclusive node :
  truthy (field node "type") = true ->
  (isTextNode node = true ->
   isFileNode node = false /\ isLinkNode node = false /\ isGroupNode node = false)
  /\ (isFileNode node = true ->
      isTextNode node = false /\ isLinkNode node = false /\ isGroupNode node = false)
  /\ (isLinkNode node = true ->
      isTextNode node = false /\ isFileNode node = false /\ isGroupNode node = false)
  /\ (isGroupNode node = true ->
      isTextNode node = false /\ isFileNode node = false /\ isLinkNode node = false)
  /\ (field node "type" <> VStr "text" -> field node "type" <> VStr "file" ->
      field node "type" <> VStr "link" -> field node "type" <> VStr "group" ->
      isTextNode node = false /\ isFileNode node = false
      /\ isLinkNode node = false /\ isGroupNode node = false).
Proof.
  intros Ht.
  rewrite (isTextNode_truthy _ Ht), (isFileNode_truthy _ Ht),
    (isLinkNode_truthy _ Ht), (isGroupNode_truthy _ Ht).
  assert (Hother : forall l1 l2 : string,
            l1 <> l2 -> is_lit (field node "type") l1 = true ->
            is_lit (field node "type") l2 = false).
  { intros l1 l2 Hne Hlit. apply is_lit_true in Hlit. rewrite Hlit. simpl.
    apply String.eqb_neq. exact Hne. }
  assert (Hnone : forall l : string,
            field node "type" <> VStr l -> is_lit (field node "type") l = false).
  { intros l Hne. destruct (is_lit (field node "type") l) eqn:Hl; [| reflexivity].
    apply is_lit_true in Hl. contradiction. }
  split; [| split; [| split; [| split]]].
  - intros Hlit. repeat split; apply (Hother "text"); (discriminate || exact Hlit).
  - intros Hlit. repeat split; apply (Hother "file"); (discriminate || exact Hlit).
  - intros Hlit. repeat split; apply (Hother "link"); (discriminate || exact Hlit).
  - intros Hlit. repeat split; apply (Hother "group"); (discriminate || exact Hlit).
  - intros H1 H2 H3 H4. repeat split; apply Hnone; assumption.
Qed.

(** X5. Without a (truthy) discriminator a group is nothing else: a node
    that the group guard accepts is rejected by the text, file and link
    guards, and a node that one of these accepts is not a group. *)
Theorem group_excludes_content node :
  truthy (field node "type") = false ->
  (isGroupNode node = true ->
   isTextNode node = false /\ isFileNode node = false /\ isLinkNode node = false)
  /\ (isTextNode node = true \/ isFileNode node = true \/ isLinkNode node = true ->
      isGroupNode node = false).
Proof.
  intros Hf.
  assert (Hgroup : isGroupNode node = true ->
            isTextNode node = false /\ isFileNode node = false /\ isLinkNode node = false).
  { intros Hg. apply (isGroupNode_falsy _ Hf) in Hg as (Htext & Hfile & Hurl).
    rewrite (isTextNode_falsy _ Hf), (isLinkNode_falsy _ Hf), Htext, Hurl.
    split; [reflexivity |]. split; [| reflexivity].
    destruct (isFileNode node) eqn:Hfn; [| reflexivity].
    apply (isFileNode_falsy _ Hf) in Hfn as [[s Hs] | (o & s & Ho & _)]; congruence. }
  split; [exact Hgroup |].
  intros Hany. destruct (isGroupNode node) eqn:Hg; [| reflexivity].
  destruct (Hgroup eq_refl) as (Ht & Hfi & Hl).
  destruct Hany as [Hany | [Hany | Hany]]; congruence.
Qed.

(** X6. The structural test does not classify every node: without a
    discriminator, a node whose [text] is present but is not a string
    ([null], a number, ...) and which has neither [file] nor [url] is of no
    variant at all. *)
Theorem unclassified_node node :
  truthy (field node "type") = false ->
  field node "text" <> VUndefined ->
  (forall s, field node "text" <> VStr s) ->
  field node "file" = VUndefined ->
  field node "url" = VUndefined ->
  isTextNode node = false /\ isFileNode node = false
  /\ isLinkNode node = false /\ isGroupNode node = false.
Proof.
  intros Hf Hdef Hstr Hfile Hurl.
  rewrite (isTextNode_falsy _ Hf), (isLinkNode_falsy _ Hf), Hurl.
  split; [| split; [| split; [reflexivity |]]].
  - destruct (String.eqb _ "string") eqn:Ht; [| reflexivity].
    apply typeof_string in Ht as [s Hs]. exfalso. exact (Hstr s Hs).
  - destruct (isFileNode node) eqn:Hfn; [| reflexivity].
    apply (isFileNode_falsy _ Hf) in Hfn as [[s Hs] | (o & s & Ho & _)]; congruence.
  - destruct (isGroupNode node) eqn:Hg; [| reflexivity].
    apply (isGroupNode_falsy _ Hf) in Hg as (Htext & _). contradiction.
Qed.

End MoreGuards.

Section MoreTaxonomy.


(** X8. [CanvasNotAvailableError] differs: its default message replaces an
    omitted message only, an empty message is kept as it is. *)
Theorem canvas_not_available_message (det : option string) :
  message (cna_base (new_CanvasNotAvailableError None det)) = "请先打开一个 Canvas 文件"
  /\ (forall m, message (cna_base (new_CanvasNotAvailableError (Some m) det)) = m)
  /\ message (cna_base (new_CanvasNotAvailableError (Some "") det))
     <> message (noe_base (new_NodeOperationError OpCreate (Some "") None det))
  /\ details (cna_base (new_CanvasNotAvailableError None det)) = det.
Proof.
  split; [reflexivity |]. split; [reflexivity |]. split; [discriminate | reflexivity].
Qed.

End MoreTaxonomy.

(* ===================================================================== *)
(** * Further properties of the node/edge mutator                         *)
(* ===================================================================== *)

(** Unfolding of the monad's plumbing. *)
Ltac run :=
  cbv beta iota zeta delta
    [bind ret throw emit call invoke deref try_catch on_world call_method
     mutate this_node read_clock read_random option_map] in *;
  cbn [w_host w_trace fst snd] in *.

Section MoreManager.

Context {H : Type}.
Variable Date_now : H -> Z.
Variable Math_random_suffix : H -> string * H.

Implicit Types (canvas : Canvas H) (w : World H) (fromNode toNode : CanvasNode).

(** The splice, when every step of it returns normally. *)
Lemma createEdge_fallback_run canvas fromNode toNode (label : option string) w
    (suffix : string) (h1 h2 h3 h4 : H)
    (getData : HostCall (option CanvasData)) (data : CanvasData)
    (importData : CanvasData -> HostCall unit) (requestFrame : HostCall unit) :
  let sides := determineEdgeSides fromNode toNode in
  let newEdge :=
    mkEdgeData ("edge-" +:+ render_number (Date_now (w_host w)) +:+ "-" +:+ suffix)
      (n_id fromNode) (Some (fromSide sides)) (n_id toNode) (Some (toSide sides))
      (Some (or_default label "")) in
  let newData :=
    mkCanvasData (cd_nodes data) (Some (default [] (cd_edges data) ++ [newEdge])%list) in
  Math_random_suffix (w_host w) = (suffix, h1) ->
  c_getData canvas = Some getData -> getData h1 = (Ok (Some data), h2) ->
  c_importData canvas = Some importData -> importData newData h2 = (Ok tt, h3) ->
  c_requestFrame canvas = Some requestFrame -> requestFrame h3 = (Ok tt, h4) ->
  createEdge_fallback Date_now Math_random_suffix canvas fromNode toNode label w =
    (Ok tt,
     mkWorld h4
       (w_trace w
        ++ [fallback_started; EvGetData; EvImportData newData; EvRequestFrame;
            EvConsoleLog "[Canvas AI] 连线创建成功 (Data-Driven)" (LogEdge newEdge)])%list).
Proof.
  intros sides newEdge newData Hrand Hget Hsnap Himp Himport Hframe Hrf.
  subst sides newEdge newData.
  unfold createEdge_fallback. run.
  rewrite Hrand; run. rewrite Hget; run. rewrite Hsnap; run.
  rewrite Himp; run. rewrite Himport; run. rewrite Hframe; run. rewrite Hrf; run.
  rewrite <- !app_assoc. reflexivity.
Qed.

(** X9. When the host's own [createEdge] hands back an edge and
    [requestSave] returns, and there is no label to set through the edge's
    [setText] (no label, an empty one, or an edge without [setText]),
    [createEdge] makes exactly these calls: the host's [createEdge] with
    the two nodes and the sides of [determineEdgeSides], then
    [requestSave], then the success log.  The splice is not touched: no
    [getData], no [importData], no [requestFrame], no notice. *)
Theorem createEdge_direct_success canvas fromNode toNode (label : option string) w
    (primitive : CanvasNode -> CanvasNode -> EdgeSides -> HostCall (option (CanvasEdge H)))
    (edge : CanvasEdge H) (h1 h2 : H) (requestSave : HostCall unit) :
  c_createEdge canvas = Some primitive ->
  primitive fromNode toNode (determineEdgeSides fromNode toNode) (w_host w)
    = (Ok (Some edge), h1) ->
  truthy_str label = false \/ e_setText edge = None ->
  c_requestSave canvas = Some requestSave ->
  requestSave h1 = (Ok tt, h2) ->
  createEdge Date_now Math_random_suffix canvas fromNode toNode label w =
    (Ok tt,
     mkWorld h2
       (w_trace w
        ++ [EvCreateEdge fromNode toNode (determineEdgeSides fromNode toNode);
            EvRequestSave;
            EvConsoleLog "[Canvas AI] 连线创建成功 (API)" (LogEdgeId (e_id edge))])%list).
Proof.
  intros Hprim Hedge Hlabel Hsave Hsaved.
  unfold createEdge, createEdge_direct. run.
  rewrite Hprim; run. rewrite Hedge; run.
  destruct (truthy_str label) eqn:Htruthy; run.
  - destruct Hlabel as [Hl | Hnone]; [discriminate |].
    rewrite Hnone; run. rewrite Hsave; run. rewrite Hsaved; run.
    rewrite <- !app_assoc. reflexivity.
  - rewrite Hsave; run. rewrite Hsaved; run.
    rewrite <- !app_assoc. reflexivity.
Qed.

(** X10. A non-empty label on an edge that has [setText] is set through
    that method, with the label as it is, after the edge is created and
    before [requestSave]. *)
Theorem createEdge_label_through_setText canvas fromNode toNode (l : string) w
    (primitive : CanvasNode -> CanvasNode -> EdgeSides -> HostCall (option (CanvasEdge H)))
    (edge : CanvasEdge H) (setText : string -> HostCall unit)
    (h1 h2 h3 : H) (requestSave : HostCall unit) :
  l <> "" ->
  c_createEdge canvas = Some primitive ->
  primitive fromNode toNode (determineEdgeSides fromNode toNode) (w_host w)
    = (Ok (Some edge), h1) ->
  e_setText edge = Some setText ->
  setText l h1 = (Ok tt, h2) ->
  c_requestSave canvas = Some requestSave ->
  requestSave h2 = (Ok tt, h3) ->
  createEdge Date_now Math_random_suffix canvas fromNode toNode (Some l) w =
    (Ok tt,
     mkWorld h3
       (w_trace w
        ++ [EvCreateEdge fromNode toNode (determineEdgeSides fromNode toNode);
            EvEdgeSetText l;
            EvRequestSave;
            EvConsoleLog "[Canvas AI] 连线创建成功 (API)" (LogEdgeId (e_id edge))])%list).
Proof.
  intros Hl Hprim Hedge Hset Hlabelled Hsave Hsaved.
  unfold createEdge, createEdge_direct. run.
  rewrite Hprim; run. rewrite Hedge; run.
  assert (Htruthy : truthy_str (Some l) = true).
  { simpl. apply negb_true_iff, String.eqb_neq, Hl. }
  rewrite Htruthy; run. rewrite Hset; run. cbn [from_option id] in *.
  rewrite Hlabelled; run. rewrite Hsave; run. rewrite Hsaved; run.
  rewrite <- !app_assoc. reflexivity.
Qed.

(** X11. If the host has created the edge and its [requestSave] then
    throws, the splice runs all the same: the snapshot, which the host has
    already extended, is re-injected with one more record for the same
    pair of nodes.  The host is asked twice to connect the two nodes. *)
Theorem createEdge_splices_after_save_failure canvas fromNode toNode (label : option string) w
    (primitive : CanvasNode -> CanvasNode -> EdgeSides -> HostCall (option (CanvasEdge H)))
    (edge : CanvasEdge H) (requestSave : HostCall unit) (error : JsError)
    (suffix : string) (h1 h2 h3 h4 h5 h6 : H)
    (getData : HostCall (option CanvasData)) (data : CanvasData)
    (importData : CanvasData -> HostCall unit) (requestFrame : HostCall unit) :
  let sides := determineEdgeSides fromNode toNode in
  let newEdge :=
    mkEdgeData ("edge-" +:+ render_number (Date_now h2) +:+ "-" +:+ suffix)
      (n_id fromNode) (Some (fromSide sides)) (n_id toNode) (Some (toSide sides))
      (Some (or_default label "")) in
  let newData :=
    mkCanvasData (cd_nodes data) (Some (default [] (cd_edges data) ++ [newEdge])%list) in
  c_createEdge canvas = Some primitive ->
  primitive fromNode toNode sides (w_host w) = (Ok (Some edge), h1) ->
  truthy_str label = false \/ e_setText edge = None ->
  c_requestSave canvas = Some requestSave ->
  requestSave h1 = (Throw error, h2) ->
  Math_random_suffix h2 = (suffix, h3) ->
  c_getData canvas = Some getData -> getData h3 = (Ok (Some data), h4) ->
  c_importData canvas = Some importData -> importData newData h4 = (Ok tt, h5) ->
  c_requestFrame canvas = Some requestFrame -> requestFrame h5 = (Ok tt, h6) ->
  createEdge Date_now Math_random_suffix canvas fromNode toNode label w =
    (Ok tt,
     mkWorld h6
       (w_trace w
        ++ [EvCreateEdge fromNode toNode sides; EvRequestSave;
            direct_failed error; fallback_started; EvGetData;
            EvImportData newData; EvRequestFrame;
            EvConsoleLog "[Canvas AI] 连线创建成功 (Data-Driven)" (LogEdge newEdge)])%list).
Proof.
  intros sides newEdge newData Hprim Hedge Hlabel Hsave Hsaved
    Hrand Hget Hsnap Himp Himport Hframe Hrf.
  assert (Hdirect :
    createEdge_direct canvas fromNode toNode label w =
      (Throw error,
       mkWorld h2 (w_trace w ++ [EvCreateEdge fromNode toNode sides; EvRequestSave]))).
  { unfold createEdge_direct. fold sides. run.
    rewrite Hprim; run. rewrite Hedge; run.
    destruct (truthy_str label) eqn:Htruthy; run.
    - destruct Hlabel as [Hl | Hnone]; [discriminate |].
      rewrite Hnone; run. rewrite Hsave; run. rewrite Hsaved; run.
      rewrite <- !app_assoc. reflexivity.
    - rewrite Hsave; run. rewrite Hsaved; run.
      rewrite <- !app_assoc. reflexivity. }
  rewrite (createEdge_after_direct_failure _ _ _ _ _ _ _ _ _ Hdirect).
  cbn [w_host w_trace].
  rewrite (createEdge_fallback_run canvas fromNode toNode label
             (mkWorld h2 ((w_trace w ++ [EvCreateEdge fromNode toNode sides; EvRequestSave])
                          ++ [direct_failed error]))
             suffix h3 h4 h5 h6
             getData data importData requestFrame Hrand Hget Hsnap Himp Himport Hframe Hrf).
  cbn [w_host w_trace]. rewrite <- !app_assoc. reflexivity.
Qed.

(** X12. After a failed direct attempt, a splice whose steps all return
    normally re-injects the snapshot with one record whose sides are those
    of [determineEdgeSides] and whose label is the label given, or the
    empty string when none (or an empty one) is given; a snapshot without
    an [edges] collection is re-injected with that record alone.  The
    calls are, in this order, [getData], [importData], [requestFrame]. *)
Theorem createEdge_splice_record canvas fromNode toNode (label : option string) w
    (error : JsError) (w1 : World H) (suffix : string) (h1 h2 h3 h4 : H)
    (getData : HostCall (option CanvasData)) (data : CanvasData)
    (importData : CanvasData -> HostCall unit) (requestFrame : HostCall unit) :
  let sides := determineEdgeSides fromNode toNode in
  let newEdge :=
    mkEdgeData ("edge-" +:+ render_number (Date_now (w_host w1)) +:+ "-" +:+ suffix)
      (n_id fromNode) (Some (fromSide sides)) (n_id toNode) (Some (toSide sides))
      (Some (or_default label "")) in
  let newData :=
    mkCanvasData (cd_nodes data) (Some (default [] (cd_edges data) ++ [newEdge])%list) in
  createEdge_direct canvas fromNode toNode label w = (Throw error, w1) ->
  Math_random_suffix (w_host w1) = (suffix, h1) ->
  c_getData canvas = Some getData -> getData h1 = (Ok (Some data), h2) ->
  c_importData canvas = Some importData -> importData newData h2 = (Ok tt, h3) ->
  c_requestFrame canvas = Some requestFrame -> requestFrame h3 = (Ok tt, h4) ->
  createEdge Date_now Math_random_suffix canvas fromNode toNode label w =
    (Ok tt,
     mkWorld h4
       (w_trace w1
        ++ [direct_failed error; fallback_started; EvGetData;
            EvImportData newData; EvRequestFrame;
            EvConsoleLog "[Canvas AI] 连线创建成功 (Data-Driven)" (LogEdge newEdge)])%list)
  /\ (cd_edges data = None -> cd_edges newData = Some [newEdge])
  /\ (truthy_str label = false -> ed_label newEdge = Some "")
  /\ (truthy_str label = true -> ed_label newEdge = label).
Proof.
  intros sides newEdge newData Hdirect Hrand Hget Hsnap Himp Himport Hframe Hrf.
  split; [| split; [| split]].
  - rewrite (createEdge_after_direct_failure _ _ _ _ _ _ _ _ _ Hdirect).
    rewrite (createEdge_fallback_run canvas fromNode toNode label
               (mkWorld (w_host w1) (w_trace w1 ++ [direct_failed error]))
               suffix h1 h2 h3 h4
               getData data importData requestFrame Hrand Hget Hsnap Himp Himport Hframe Hrf).
    cbn [w_host w_trace]. rewrite <- !app_assoc. reflexivity.
  - intros Hnone. subst newData. cbn [cd_edges]. rewrite Hnone. reflexivity.
  - intros Hfalsy. subst newEdge. cbn [ed_label]. unfold or_default.
    rewrite Hfalsy. reflexivity.
  - intros Htruthy. subst newEdge. cbn [ed_label]. unfold or_default.
    rewrite Htruthy. destruct label; [reflexivity | discriminate].
Qed.

(** X13. When the direct attempt has failed and [getData] returns nothing
    ([null] or [undefined]), the splice stops there: the error that is
    logged is the plain [Error('无法获取 Canvas 数据')], the notice is shown,
    and the host is left as [getData] left it. *)
Theorem createEdge_without_snapshot canvas fromNode toNode (label : option string) w
    (error : JsError) (w1 : World H) (suffix : string) (h1 h2 : H)
    (getData : HostCall (option CanvasData)) :
  createEdge_direct canvas fromNode toNode label w = (Throw error, w1) ->
  Math_random_suffix (w_host w1) = (suffix, h1) ->
  c_getData canvas = Some getData -> getData h1 = (Ok None, h2) ->
  createEdge Date_now Math_random_suffix canvas fromNode toNode label w =
    (Ok tt,
     mkWorld h2
       (w_trace w1
        ++ [direct_failed error; fallback_started; EvGetData;
            fallback_failed (PlainError "Error" "无法获取 Canvas 数据");
            cannot_connect])%list).
Proof.
  intros Hdirect Hrand Hget Hsnap.
  rewrite (createEdge_after_direct_failure _ _ _ _ _ _ _ _ _ Hdirect).
  unfold createEdge_fallback. run.
  rewrite Hrand; run. rewrite Hget; run. rewrite Hsnap; run.
  rewrite <- !app_assoc. reflexivity.
Qed.

(** X14. On a canvas object that has no [createTextNode], the manager's
    [createTextNode] throws a [TypeError] before anything is called: the
    host state and the trace are as they were. *)
Theorem createTextNode_without_primitive canvas (content : string) (x y width height : Z) w :
  c_createTextNode canvas = None ->
  createTextNode canvas content x y width height w
    = (Throw (TypeError "canvas.createTextNode"), w).
Proof.
  intros Hnone. unfold createTextNode. rewrite Hnone. run. reflexivity.
Qed.

(** X15. On a plain record (a node without [setText]) [updateNodeContent]
    changes the [text] field and nothing else: the id, the position, the
    size, every other property and the two capabilities are as before,
    whatever the canvas object does. *)
Theorem updateNodeContent_frame canvas (content : string) (node : CanvasTextNode H) w :
  tn_setText node = None ->
  let node' := fst (snd (updateNodeContent canvas content (node, w))) in
  n_id (tn_node node') = n_id (tn_node node)
  /\ n_x (tn_node node') = n_x (tn_node node)
  /\ n_y (tn_node node') = n_y (tn_node node)
  /\ n_width (tn_node node') = n_width (tn_node node)
  /\ n_height (tn_node node') = n_height (tn_node node)
  /\ (forall k : string, k <> "text" -> field (tn_node node') k = field (tn_node node) k)
  /\ tn_setText node' = None
  /\ tn_getData node' = tn_getData node.
Proof.
  intros Hplain node'. subst node'.
  assert (Hnode : fst (snd (updateNodeContent canvas content (node, w)))
                  = mkTextNode (assign_text content (tn_node node))
                      None (tn_getData node)).
  { unfold updateNodeContent. run. rewrite Hplain; run.
    destruct (c_requestFrame canvas) as [requestFrame|]; run;
      [destruct (requestFrame (w_host w)) as [r h2] |];
      cbn [fst snd]; rewrite ?Hplain; reflexivity. }
  rewrite Hnode. cbn [tn_node tn_setText tn_getData].
  repeat (split; [reflexivity |]).
  split; [| split; reflexivity].
  intros k Hk. unfold field, assign_text, with_props. cbn [n_props].
  rewrite lookup_insert_ne by congruence. reflexivity.
Qed.

(** X16. Two updates in a row on a plain record leave the node exactly as
    the second one alone would: the last content wins, as the streaming of
    partial responses needs. *)
Theorem updateNodeContent_last_wins canvas (c1 c2 : string) (node : CanvasTextNode H) w :
  tn_setText node = None ->
  fst (updateNodeContent canvas c1 (node, w)) = Ok tt ->
  let twice := bind (updateNodeContent canvas c1) (fun _ => updateNodeContent canvas c2) in
  fst (snd (twice (node, w))) = fst (snd (updateNodeContent canvas c2 (node, w)))
  /\ field (tn_node (fst (snd (twice (node, w))))) "text" = VStr c2.
Proof.
  intros Hplain Hfirst twice. subst twice.
  assert (Hone : forall c (n : CanvasTextNode H) (w0 : World H),
            tn_setText n = None ->
            fst (snd (updateNodeContent canvas c (n, w0)))
            = mkTextNode (assign_text c (tn_node n)) None (tn_getData n)).
  { intros c n w0 Hn. unfold updateNodeContent. run. rewrite Hn; run.
    destruct (c_requestFrame canvas) as [requestFrame|]; run;
      [destruct (requestFrame (w_host w0)) as [r h2] |];
      cbn [fst snd]; rewrite ?Hn; reflexivity. }
  assert (Hassign : assign_text c2 (assign_text c1 (tn_node node))
                    = assign_text c2 (tn_node node)).
  { unfold assign_text, with_props. cbn [n_id n_x n_y n_width n_height n_props].
    rewrite insert_insert_eq. reflexivity. }
  assert (Htwice : fst (snd (bind (updateNodeContent canvas c1)
                               (fun _ => updateNodeContent canvas c2) (node, w)))
                   = mkTextNode (assign_text c2 (tn_node node))
                       None (tn_getData node)).
  { unfold bind.
    pose proof (Hone c1 node w Hplain) as H1.
    destruct (updateNodeContent canvas c1 (node, w)) as [[[]|e] [n1 w1]] eqn:Hrun;
      cbn [fst snd] in *; [| discriminate].
    subst n1. rewrite Hone by reflexivity.
    cbn [tn_node tn_setText tn_getData]. rewrite Hassign. reflexivity. }
  rewrite Htwice, (Hone c2 node w Hplain). split; [reflexivity |].
  cbn [tn_node]. unfold field, assign_text, with_props. cbn [n_props].
  rewrite lookup_insert_eq. reflexivity.
Qed.

(** What a plain record looks like to the guards after an update. *)
Lemma updateNodeContent_frame_aux canvas (content : string) (node : CanvasTextNode H) w :
  tn_setText node = None ->
  let node' := tn_node (fst (snd (updateNodeContent canvas content (node, w)))) in
  field node' "type" = field (tn_node node) "type"
  /\ field node' "text" = VStr content.
Proof.
  intros Hplain node'. subst node'.
  assert (Hnode : fst (snd (updateNodeContent canvas content (node, w)))
                  = mkTextNode (assign_text content (tn_node node))
                      None (tn_getData node)).
  { unfold updateNodeContent. run. rewrite Hplain; run.
    destruct (c_requestFrame canvas) as [requestFrame|]; run;
      [destruct (requestFrame (w_host w)) as [r h2] |];
      cbn [fst snd]; rewrite ?Hplain; reflexivity. }
  rewrite Hnode. cbn [tn_node]. unfold field, assign_text, with_props. cbn [n_props].
  rewrite lookup_insert_ne by discriminate. rewrite lookup_insert_eq. auto.
Qed.

(** X17. After [updateNodeContent] on a plain record the variant guards
    see the new text: a node without a (truthy) discriminator is a text
    node and is not a group, even if it was a group before; a node with a
    truthy discriminator keeps the variant that the discriminator gives
    it. *)
Theorem updateNodeContent_variant canvas (content : string) (node : CanvasTextNode H) w :
  tn_setText node = None ->
  let node' := tn_node (fst (snd (updateNodeContent canvas content (node, w)))) in
  (truthy (field (tn_node node) "type") = false ->
   isTextNode node' = true /\ isGroupNode node' = false)
  /\ (truthy (field (tn_node node) "type") = true ->
      isTextNode node' = isTextNode (tn_node node)
      /\ isFileNode node' = isFileNode (tn_node node)
      /\ isLinkNode node' = isLinkNode (tn_node node)
      /\ isGroupNode node' = isGroupNode (tn_node node)).
Proof.
  intros Hplain node'.
  destruct (updateNodeContent_frame_aux canvas content node w Hplain) as (Htype & Htext).
  fold node' in Htype, Htext.
  split.
  - intros Hf. rewrite <- Htype in Hf.
    split.
    + rewrite (isTextNode_falsy _ Hf), Htext. reflexivity.
    + destruct (isGroupNode node') eqn:Hg; [| reflexivity].
      apply (isGroupNode_falsy _ Hf) in Hg as (Hundef & _). congruence.
  - intros Ht. pose proof Ht as Ht'. rewrite <- Htype in Ht'.
    rewrite (isTextNode_truthy _ Ht'), (isFileNode_truthy _ Ht'),
      (isLinkNode_truthy _ Ht'), (isGroupNode_truthy _ Ht'),
      (isTextNode_truthy _ Ht), (isFileNode_truthy _ Ht),
      (isLinkNode_truthy _ Ht), (isGroupNode_truthy _ Ht), Htype.
    repeat split.
Qed.

End MoreManager.

(* ===================================================================== *)
(** * Properties of the shortcut capture modal                            *)
(* ===================================================================== *)

Section ShortcutProperties.

Import Shortcut.

Variable toUpperCase : string -> string.

Implicit Types (evt : KeyboardEvent) (modal : Modal).

Lemma lone_modifier_test evt :
  existsb (String.eqb (evt_key evt)) ["Shift"; "Control"; "Alt"; "Meta"] = true
  <-> lone_modifier evt.
Proof.
  unfold lone_modifier. rewrite existsb_exists. split.
  - intros (k & Hin & Heq). apply String.eqb_eq in Heq. congruence.
  - intros Hin. exists (evt_key evt). split; [exact Hin | apply String.eqb_refl].
Qed.

Lemma keydown_modifier evt modal :
  lone_modifier evt -> snd (keydownHandler toUpperCase evt modal) = modal.
Proof.
  intros Hlone. apply lone_modifier_test in Hlone.
  unfold keydownHandler. rewrite Hlone. reflexivity.
Qed.

Lemma keydown_other evt modal modal0 :
  ~ lone_modifier evt ->
  snd (keydownHandler toUpperCase evt modal) = snd (keydownHandler toUpperCase evt modal0).
Proof.
  intros Hkey. unfold keydownHandler.
  destruct (existsb _ _) eqn:Htest; [| reflexivity].
  apply lone_modifier_test in Htest. contradiction.
Qed.

(** X18. A modifier key pressed on its own (Shift, Control, Alt, Meta)
    captures nothing: the modal is left as it was, so the confirm button
    stays disabled if it was; the event is still swallowed. *)
Theorem lone_modifier_ignored evt modal :
  lone_modifier evt ->
  snd (keydownHandler toUpperCase evt modal) = modal
  /\ defaultPrevented (fst (keydownHandler toUpperCase evt modal)) = true
  /\ propagationStopped (fst (keydownHandler toUpperCase evt modal)) = true.
Proof.
  intros Hlone. split; [apply keydown_modifier, Hlone |].
  apply lone_modifier_test in Hlone.
  unfold keydownHandler. rewrite Hlone. split; reflexivity.
Qed.

(** X19. Any other key captures a shortcut, enables the confirm button and
    shows the formatted shortcut.  The captured modifiers are exactly those
    whose flag is set on the event ([metaKey] is recorded as "Mod"), each
    once, in the fixed order Shift, Ctrl, Alt, Mod. *)
Theorem keydown_captures evt modal :
  ~ lone_modifier evt ->
  let modal' := snd (keydownHandler toUpperCase evt modal) in
  confirmDisabled modal' = false
  /\ exists shortcut,
       capturedShortcut modal' = Some shortcut
       /\ displayText modal' = formatShortcut shortcut
       /\ NoDup (modifiers shortcut)
       /\ sublist (modifiers shortcut) ["Shift"; "Ctrl"; "Alt"; "Mod"]
       /\ (In "Shift" (modifiers shortcut) <-> shiftKey evt = true)
       /\ (In "Ctrl" (modifiers shortcut) <-> ctrlKey evt = true)
       /\ (In "Alt" (modifiers shortcut) <-> altKey evt = true)
       /\ (In "Mod" (modifiers shortcut) <-> metaKey evt = true).
Proof.
  intros Hkey modal'. subst modal'. unfold keydownHandler.
  destruct (existsb _ _) eqn:Htest.
  { apply lone_modifier_test in Htest. contradiction. }
  cbn [snd confirmDisabled capturedShortcut displayText].
  split; [reflexivity |]. eexists. split; [reflexivity |]. split; [reflexivity |].
  cbn [modifiers].
  destruct (shiftKey evt), (ctrlKey evt), (altKey evt), (metaKey evt); cbn [app];
    (split; [apply (bool_decide_unpack _); vm_compute; exact I |]);
    (split; [repeat first [apply sublist_nil | apply sublist_skip | apply sublist_cons] |]);
    cbn; intuition (discriminate || auto).
Qed.

(** X20. The captured key is the event's key, normalised: the space bar is
    recorded as "Space", any other key of length one is upper-cased, and a
    longer key name (Enter, ArrowUp, F5, ...) is recorded as it is. *)
Theorem keydown_key_normalised evt modal :
  ~ lone_modifier evt ->
  exists shortcut,
    capturedShortcut (snd (keydownHandler toUpperCase evt modal)) = Some shortcut
    /\ (evt_key evt = " " -> key shortcut = "Space")
    /\ (evt_key evt <> " " -> String.length (evt_key evt) = 1%nat ->
        key shortcut = toUpperCase (evt_key evt))
    /\ (String.length (evt_key evt) <> 1%nat -> key shortcut = evt_key evt).
Proof.
  intros Hkey. unfold keydownHandler.
  destruct (existsb _ _) eqn:Htest.
  { apply lone_modifier_test in Htest. contradiction. }
  cbn [snd capturedShortcut]. eexists. split; [reflexivity |]. cbn [key].
  split; [| split].
  - intros ->. reflexivity.
  - intros Hne Hlen. apply String.eqb_neq in Hne. rewrite Hne, Hlen. reflexivity.
  - intros Hlen.
    destruct (String.eqb (evt_key evt) " ") eqn:Hsp.
    + apply String.eqb_eq in Hsp. rewrite Hsp in Hlen. contradiction Hlen. reflexivity.
    + apply Nat.eqb_neq in Hlen. rewrite Hlen. reflexivity.
Qed.

(** X21. Over a sequence of key presses the modal shows the last key that
    was not a lone modifier, exactly as if that key had been the only one
    pressed: what was captured before is overwritten as a whole, and
    modifier keys pressed afterwards change nothing. *)
Theorem last_key_wins (before after : list KeyboardEvent) evt modal :
  ~ lone_modifier evt ->
  Forall lone_modifier after ->
  keydowns toUpperCase (before ++ evt :: after) modal
    = snd (keydownHandler toUpperCase evt opened).
Proof.
  intros Hkey Hafter. unfold keydowns.
  rewrite fold_left_app. cbn [fold_left].
  rewrite (keydown_other evt _ opened Hkey).
  generalize (snd (keydownHandler toUpperCase evt opened)) as m.
  induction Hafter as [| e rest He _ IH]; intros m; [reflexivity |].
  cbn [fold_left]. rewrite (keydown_modifier e m He). apply IH.
Qed.

(** X22. [formatShortcut] is the '+'-join of the modifiers followed by the
    key in every case: the special case for an empty modifier list returns
    what the join would. *)
Theorem formatShortcut_join (shortcut : CapturedShortcut) :
  formatShortcut shortcut = String.concat "+" (modifiers shortcut ++ [key shortcut])
  /\ (modifiers shortcut = [] -> formatShortcut shortcut = key shortcut).
Proof.
  unfold formatShortcut. destruct (modifiers shortcut) as [| m ms]; cbn.
  - split; reflexivity.
  - split; [reflexivity | discriminate].
Qed.

End ShortcutProperties.

(* ===================================================================== *)
(** * Properties of the start and end of the canvas features              *)
(* ===================================================================== *)

Section LifecycleProperties.

Import Lifecycle.

Context {H Controller Handler : Type}.
Variable modules : CanvasModules H Controller Handler.

Implicit Types (p : Plugin H Controller Handler).

Ltac prun :=
  cbv beta iota zeta delta
    [bind ret throw try_catch this log pcall set_canvasUIController
     set_canvasMenuHandler debug_log] in *;
  cbn [settings canvasUIController canvasMenuHandler p_host p_trace fst snd negb] in *.

(** X23. Neither [initializeCanvasFeatures] nor [cleanupCanvasFeatures]
    ever throws, whatever the constructors and methods of the canvas
    modules do and whatever the state of the plugin is. *)
Theorem lifecycle_never_throws p :
  fst (initializeCanvasFeatures modules p) = Ok tt
  /\ fst (cleanupCanvasFeatures modules p) = Ok tt.
Proof.
  split.
  - unfold initializeCanvasFeatures. prun.
    destruct (negb (canvas_enabled p)); prun.
    + destruct (debugMode (settings p)); reflexivity.
    + destruct (new_CanvasUIController modules (p_host p)) as [[c|e] h1]; prun;
        [| reflexivity].
      destruct (new_CanvasMenuHandler modules c h1) as [[hd|e] h2]; prun;
        [| reflexivity].
      destruct (register modules hd h2) as [[[]|e] h3]; prun; [| reflexivity].
      destruct (debugMode (settings p)); reflexivity.
  - unfold cleanupCanvasFeatures. prun.
    destruct (canvasUIController p) as [c|]; prun.
    + destruct (cleanup modules c (p_host p)) as [[[]|e] h1]; prun; [| reflexivity].
      destruct (canvasMenuHandler p) as [hd|]; prun.
      * destruct (unregister modules hd h1) as [[[]|e] h2]; prun; [| reflexivity].
        destruct (debugMode (settings p)); reflexivity.
      * destruct (debugMode (settings p)); reflexivity.
    + destruct (canvasMenuHandler p) as [hd|]; prun.
      * destruct (unregister modules hd (p_host p)) as [[[]|e] h2]; prun; [| reflexivity].
        destruct (debugMode (settings p)); reflexivity.
      * destruct (debugMode (settings p)); reflexivity.
Qed.

(** X24. With the canvas features switched off (no [canvasSettings], or
    [enabled] false) initialisation constructs nothing and calls nothing:
    the two fields and the host are as before, and the only trace is the
    debug line, in debug mode. *)
Theorem initialize_disabled p :
  canvas_enabled p = false ->
  initializeCanvasFeatures modules p =
    (Ok tt,
     mkPlugin (settings p) (canvasUIController p) (canvasMenuHandler p) (p_host p)
       (p_trace p ++ debug_entry p "[Canvas AI] Canvas 功能已禁用")).
Proof.
  intros Hoff. unfold initializeCanvasFeatures, debug_entry. prun. rewrite Hoff. prun.
  destruct (debugMode (settings p)); prun; [reflexivity |].
  rewrite app_nil_r. destruct p; reflexivity.
Qed.

(** X25. Where initialisation can stop.  If the controller's constructor
    throws, the handler is never constructed and both fields are as
    before.  If the handler's constructor throws, the controller field is
    already set.  If [register] throws, both fields are set although the
    menu is not registered.  In each case the error is logged and nothing
    is thrown. *)
Theorem initialize_failure_points p (error : JsError) :
  canvas_enabled p = true ->
  (forall h1,
     new_CanvasUIController modules (p_host p) = (Throw error, h1) ->
     initializeCanvasFeatures modules p =
       (Ok tt,
        mkPlugin (settings p) (canvasUIController p) (canvasMenuHandler p) h1
          (p_trace p
           ++ [LNewController;
               LConsoleError "[Canvas AI] 初始化 Canvas 功能失败:" error])))
  /\ (forall c h1 h2,
        new_CanvasUIController modules (p_host p) = (Ok c, h1) ->
        new_CanvasMenuHandler modules c h1 = (Throw error, h2) ->
        initializeCanvasFeatures modules p =
          (Ok tt,
           mkPlugin (settings p) (Some c) (canvasMenuHandler p) h2
             (p_trace p
              ++ [LNewController; LNewHandler c;
                  LConsoleError "[Canvas AI] 初始化 Canvas 功能失败:" error])))
  /\ (forall c hd h1 h2 h3,
        new_CanvasUIController modules (p_host p) = (Ok c, h1) ->
        new_CanvasMenuHandler modules c h1 = (Ok hd, h2) ->
        register modules hd h2 = (Throw error, h3) ->
        initializeCanvasFeatures modules p =
          (Ok tt,
           mkPlugin (settings p) (Some c) (Some hd) h3
             (p_trace p
              ++ [LNewController; LNewHandler c; LRegister hd;
                  LConsoleError "[Canvas AI] 初始化 Canvas 功能失败:" error]))).
Proof.
  intros Hon. split; [| split].
  - intros h1 Hctl. unfold initializeCanvasFeatures. prun. rewrite Hon. prun.
    rewrite Hctl. prun. rewrite <- !app_assoc. reflexivity.
  - intros c h1 h2 Hctl Hhd. unfold initializeCanvasFeatures. prun. rewrite Hon. prun.
    rewrite Hctl. prun. rewrite Hhd. prun. rewrite <- !app_assoc. reflexivity.
  - intros c hd h1 h2 h3 Hctl Hhd Hreg. unfold initializeCanvasFeatures. prun.
    rewrite Hon. prun. rewrite Hctl. prun. rewrite Hhd. prun. rewrite Hreg. prun.
    rewrite <- !app_assoc. reflexivity.
Qed.

(** X26. If the controller's [cleanup] throws, the menu handler is not
    unregistered: the error is logged, and [unregister] is never called,
    even when a handler is there. *)
Theorem cleanup_skips_unregister p (c : Controller) (error : JsError) (h1 : H) :
  canvasUIController p = Some c ->
  cleanup modules c (p_host p) = (Throw error, h1) ->
  cleanupCanvasFeatures modules p =
    (Ok tt,
     mkPlugin (settings p) (Some c) (canvasMenuHandler p) h1
       (p_trace p
        ++ [LCleanup c; LConsoleError "[Canvas AI] 清理 Canvas 资源失败:" error])).
Proof.
  intros Hctl Hthrow. unfold cleanupCanvasFeatures. prun.
  rewrite Hctl. prun. rewrite Hthrow. prun.
  rewrite <- !app_assoc, ?Hctl. reflexivity.
Qed.

(** X27. Cleaning up when the canvas features were never initialised is
    harmless: with both fields unset no method is called and the plugin is
    as before, up to the debug line. *)
Theorem cleanup_uninitialised p :
  canvasUIController p = None ->
  canvasMenuHandler p = None ->
  cleanupCanvasFeatures modules p =
    (Ok tt,
     mkPlugin (settings p) None None (p_host p)
       (p_trace p ++ debug_entry p "[Canvas AI] Canvas 资源已清理")).
Proof.
  intros Hctl Hhd. unfold cleanupCanvasFeatures, debug_entry. prun.
  rewrite Hctl. prun. rewrite Hhd. prun.
  destruct (debugMode (settings p)); prun; rewrite ?Hctl, ?Hhd; [reflexivity |].
  rewrite app_nil_r, <- Hctl, <- Hhd. destruct p; reflexivity.
Qed.

(** X28. A successful initialisation followed by a successful cleanup
    releases what was set up, in this order: controller constructed,
    handler constructed with that controller, handler registered,
    controller cleaned up, handler unregistered.  The two fields are still
    set afterwards: cleanup does not clear them. *)
Theorem initialize_then_cleanup p (c : Controller) (hd : Handler) (h1 h2 h3 h4 h5 : H) :
  canvas_enabled p = true ->
  new_CanvasUIController modules (p_host p) = (Ok c, h1) ->
  new_CanvasMenuHandler modules c h1 = (Ok hd, h2) ->
  register modules hd h2 = (Ok tt, h3) ->
  cleanup modules c h3 = (Ok tt, h4) ->
  unregister modules hd h4 = (Ok tt, h5) ->
  bind (initializeCanvasFeatures modules) (fun _ => cleanupCanvasFeatures modules) p =
    (Ok tt,
     mkPlugin (settings p) (Some c) (Some hd) h5
       (p_trace p
        ++ [LNewController; LNewHandler c; LRegister hd]
        ++ debug_entry p "[Canvas AI] Canvas 功能已初始化"
        ++ [LCleanup c; LUnregister hd]
        ++ debug_entry p "[Canvas AI] Canvas 资源已清理")).
Proof.
  intros Hon Hctl Hhd Hreg Hclean Hunreg.
  unfold initializeCanvasFeatures, cleanupCanvasFeatures, debug_entry. prun.
  rewrite Hon. prun. rewrite Hctl. prun. rewrite Hhd. prun. rewrite Hreg. prun.
  destruct (debugMode (settings p)) eqn:Hdbg; prun;
    rewrite Hclean; prun; rewrite Hunreg; prun; rewrite ?Hdbg; prun;
    rewrite <- ?app_assoc; reflexivity.
Qed.

End LifecycleProperties.

(* ===================================================================== *)
(** * The further properties on concrete inputs                           *)
(* ===================================================================== *)

Section MoreScenarios.

Lemma determineEdgeSides_reverse_witness :
  determineEdgeSides node2 node1 = mkSides SideTop SideBottom.
Proof.
  rewrite (determineEdgeSides_reverse node1 node2); [reflexivity |].
  right. simpl. lia.
Defined.

Lemma placed_node_edge_witness :
  determineEdgeSides triggerNode (mkNode "response" 100 350 400 200 ∅)
    = mkSides SideBottom SideTop.
Proof.
  apply (proj1 (placed_node_edge triggerNode (mkNode "response" 100 350 400 200 ∅) 0 150
                  ltac:(simpl; lia) ltac:(simpl; lia) ltac:(simpl; lia)
                  ltac:(simpl; lia) ltac:(simpl; lia) eq_refl)); simpl; lia.
Defined.

Lemma typed_guards_exclusive_witness :
  isFileNode fileTypedNode = true
  /\ isTextNode fileTypedNode = false /\ isLinkNode fileTypedNode = false
  /\ isGroupNode fileTypedNode = false.
Proof.
  split; [reflexivity |].
  apply (proj1 (proj2 (typed_guards_exclusive fileTypedNode eq_refl))). reflexivity.
Defined.

Lemma group_excludes_content_witness :
  isTextNode bareNode = false /\ isFileNode bareNode = false /\ isLinkNode bareNode = false.
Proof.
  apply (proj1 (group_excludes_content bareNode eq_refl)). reflexivity.
Defined.

Lemma unclassified_node_witness :
  isTextNode nullTextNode = false /\ isFileNode nullTextNode = false
  /\ isLinkNode nullTextNode = false /\ isGroupNode nullTextNode = false.
Proof.
  apply unclassified_node.
  - reflexivity.
  - discriminate.
  - intros s. discriminate.
  - reflexivity.
  - reflexivity.
Defined.


Lemma createEdge_direct_success_witness :
  createEdge Mock.now Mock.random (MockEdges.workingCanvas MockEdges.plainEdge)
    node1 node2 None Mock.world0
  = (Ok tt,
     mkWorld
       (mkCanvasData []
          (Some [mkEdgeData "edge-host-1" "node-1" (Some SideBottom)
                   "node-2" (Some SideTop) None]))
       ([] ++ [EvCreateEdge node1 node2 (determineEdgeSides node1 node2);
               EvRequestSave;
               EvConsoleLog "[Canvas AI] 连线创建成功 (API)" (LogEdgeId "edge-host-1")])).
Proof.
  eapply (createEdge_direct_success Mock.now Mock.random
            (MockEdges.workingCanvas MockEdges.plainEdge) node1 node2 None Mock.world0
            (MockEdges.hostCreateEdge MockEdges.plainEdge) MockEdges.plainEdge
            _ _ Mock.noop);
    first [reflexivity | left; reflexivity].
Defined.

Lemma createEdge_label_through_setText_witness :
  exists h,
    createEdge Mock.now Mock.random (MockEdges.workingCanvas MockEdges.richEdge)
      node1 node2 (Some "reply") Mock.world0
    = (Ok tt,
       mkWorld h
         ([] ++ [EvCreateEdge node1 node2 (determineEdgeSides node1 node2);
                 EvEdgeSetText "reply";
                 EvRequestSave;
                 EvConsoleLog "[Canvas AI] 连线创建成功 (API)" (LogEdgeId "edge-host-2")])).
Proof.
  eexists.
  eapply (createEdge_label_through_setText Mock.now Mock.random
           (MockEdges.workingCanvas MockEdges.richEdge) node1 node2 "reply" Mock.world0
           (MockEdges.hostCreateEdge MockEdges.richEdge) MockEdges.richEdge
           MockEdges.edgeSetText _ _ _ Mock.noop).
  - discriminate.
  - reflexivity.
  - reflexivity.
  - reflexivity.
  - reflexivity.
  - reflexivity.
  - reflexivity.
Defined.

Lemma createEdge_splices_after_save_failure_witness :
  exists h t,
    createEdge Mock.now Mock.random MockEdges.crashingSaveCanvas node1 node2 None Mock.world0
      = (Ok tt, mkWorld h t)
    /\ option_map (map ed_fromNode) (cd_edges h) = Some ["node-1"; "node-1"]
    /\ option_map (map ed_toNode) (cd_edges h) = Some ["node-2"; "node-2"].
Proof.
  eexists. eexists. split.
  - eapply (createEdge_splices_after_save_failure Mock.now Mock.random
              MockEdges.crashingSaveCanvas node1 node2 None Mock.world0
              (MockEdges.hostCreateEdge MockEdges.plainEdge) MockEdges.plainEdge
              MockEdges.saveThrows _ "k3x9q0w2z" _ _ _ _ _ _
              Mock.getData _ Mock.importData Mock.noop);
      first [reflexivity | left; reflexivity].
  - split; reflexivity.
Defined.

Lemma createEdge_splice_record_witness :
  exists h t,
    createEdge Mock.now Mock.random Mock.spliceCanvas node1 node2 None Mock.world0
      = (Ok tt, mkWorld h t)
    /\ cd_edges h =
         Some [mkEdgeData "edge-1700000000000-k3x9q0w2z" "node-1" (Some SideBottom)
                 "node-2" (Some SideTop) (Some "")].
Proof.
  eexists. eexists. split.
  - eapply (proj1 (createEdge_splice_record Mock.now Mock.random Mock.spliceCanvas
                     node1 node2 None Mock.world0 _ _ "k3x9q0w2z" _ _ _ _
                     Mock.getData Mock.emptyData Mock.importData Mock.noop
                     eq_refl eq_refl eq_refl eq_refl eq_refl eq_refl eq_refl eq_refl)).
  - reflexivity.
Defined.

Lemma createEdge_without_snapshot_witness :
  createEdge Mock.now Mock.random Mock.noDataCanvas node1 node2 None Mock.world0
  = (Ok tt,
     mkWorld Mock.emptyData
       ([EvCreateEdge node1 node2 (mkSides SideBottom SideTop)]
        ++ [direct_failed (PlainError "TypeError" "Cannot read properties of undefined");
            fallback_started; EvGetData;
            fallback_failed (PlainError "Error" "无法获取 Canvas 数据");
            cannot_connect])).
Proof.
  apply (createEdge_without_snapshot Mock.now Mock.random Mock.noDataCanvas
           node1 node2 None Mock.world0
           (PlainError "TypeError" "Cannot read properties of undefined")
           (mkWorld Mock.emptyData [EvCreateEdge node1 node2 (mkSides SideBottom SideTop)])
           "k3x9q0w2z" Mock.emptyData Mock.emptyData Mock.noData
           eq_refl eq_refl eq_refl eq_refl).
Defined.

Lemma createTextNode_without_primitive_witness :
  createTextNode MockEdges.noCreateCanvas "Test" 0 0 400 200 Mock.world0
  = (Throw (TypeError "canvas.createTextNode"), Mock.world0).
Proof.
  apply createTextNode_without_primitive. reflexivity.
Defined.

Lemma updateNodeContent_frame_witness :
  n_id (tn_node (fst (snd (updateNodeContent Mock.spliceCanvas "Updated content"
                             (Mock.plainNode, Mock.world0))))) = "node-1"
  /\ field (tn_node (fst (snd (updateNodeContent Mock.spliceCanvas "Updated content"
                                 (Mock.plainNode, Mock.world0))))) "type" = VStr "text".
Proof.
  destruct (updateNodeContent_frame Mock.spliceCanvas "Updated content"
              Mock.plainNode Mock.world0 eq_refl)
    as (Hid & _ & _ & _ & _ & Hprops & _).
  split; [exact Hid |].
  rewrite Hprops; [reflexivity | discriminate].
Defined.

Lemma updateNodeContent_last_wins_witness :
  field (tn_node (fst (snd (bind (updateNodeContent Mock.spliceCanvas "Part 1")
                              (fun _ => updateNodeContent Mock.spliceCanvas "Part 1 Part 2")
                              (Mock.plainNode, Mock.world0))))) "text"
  = VStr "Part 1 Part 2".
Proof.
  apply (proj2 (updateNodeContent_last_wins Mock.spliceCanvas "Part 1" "Part 1 Part 2"
                  Mock.plainNode Mock.world0 eq_refl eq_refl)).
Defined.

Lemma updateNodeContent_variant_witness :
  isTextNode (tn_node (fst (snd (updateNodeContent Mock.spliceCanvas "now text"
                                   (MockEdges.plainBareNode, Mock.world0))))) = true
  /\ isTextNode (tn_node (fst (snd (updateNodeContent Mock.spliceCanvas "now text"
                                      (MockEdges.plainFileNode, Mock.world0))))) = false.
Proof.
  split.
  - apply (proj1 (updateNodeContent_variant Mock.spliceCanvas "now text"
                    MockEdges.plainBareNode Mock.world0 eq_refl)). reflexivity.
  - rewrite (proj1 (proj2 (updateNodeContent_variant Mock.spliceCanvas "now text"
                             MockEdges.plainFileNode Mock.world0 eq_refl) eq_refl)).
    reflexivity.
Defined.

Lemma lone_modifier_ignored_witness :
  snd (Shortcut.keydownHandler Shortcut.asciiUpper (Shortcut.plainKey "Shift") Shortcut.opened)
  = Shortcut.opened.
Proof.
  apply (proj1 (lone_modifier_ignored Shortcut.asciiUpper (Shortcut.plainKey "Shift")
                  Shortcut.opened (or_introl eq_refl))).
Defined.

Lemma keydown_captures_witness :
  Shortcut.confirmDisabled
    (snd (Shortcut.keydownHandler Shortcut.asciiUpper (Shortcut.ctrlShiftKey "a")
            Shortcut.opened)) = false.
Proof.
  apply (keydown_captures Shortcut.asciiUpper (Shortcut.ctrlShiftKey "a") Shortcut.opened).
  unfold Shortcut.lone_modifier. simpl. intuition discriminate.
Defined.

Lemma keydown_key_normalised_witness :
  exists shortcut,
    Shortcut.capturedShortcut
      (snd (Shortcut.keydownHandler Shortcut.asciiUpper (Shortcut.ctrlShiftKey " ")
              Shortcut.opened)) = Some shortcut
    /\ Shortcut.key shortcut = "Space".
Proof.
  destruct (keydown_key_normalised Shortcut.asciiUpper (Shortcut.ctrlShiftKey " ")
              Shortcut.opened) as (shortcut & Hcaptured & Hspace & _).
  - unfold Shortcut.lone_modifier. simpl. intuition discriminate.
  - exists shortcut. split; [exact Hcaptured | apply Hspace; reflexivity].
Defined.

Lemma last_key_wins_witness :
  Shortcut.displayText
    (Shortcut.keydowns Shortcut.asciiUpper
       ([Shortcut.plainKey "x"] ++ Shortcut.ctrlShiftKey "a" :: [Shortcut.plainKey "Shift"])
       Shortcut.opened)
  = "Shift+Ctrl+A".
Proof.
  rewrite (last_key_wins Shortcut.asciiUpper [Shortcut.plainKey "x"]
             [Shortcut.plainKey "Shift"] (Shortcut.ctrlShiftKey "a") Shortcut.opened).
  - reflexivity.
  - unfold Shortcut.lone_modifier. simpl. intuition discriminate.
  - repeat constructor.
Defined.

Lemma formatShortcut_join_witness :
  Shortcut.formatShortcut (Shortcut.mkShortcut [] "Enter") = "Enter".
Proof.
  apply (proj2 (formatShortcut_join (Shortcut.mkShortcut [] "Enter"))). reflexivity.
Defined.

Lemma initialize_disabled_witness :
  Lifecycle.initializeCanvasFeatures Lifecycle.okModules (Lifecycle.freshPlugin false true)
  = (Ok tt,
     Lifecycle.mkPlugin (Lifecycle.mkSettings (Some (Lifecycle.mkCanvasSettings false)) true)
       None None 0%nat
       ([] ++ [Lifecycle.LConsoleLog "[Canvas AI] Canvas 功能已禁用"])).
Proof.
  apply (initialize_disabled Lifecycle.okModules (Lifecycle.freshPlugin false true)).
  reflexivity.
Defined.

Lemma initialize_failure_points_witness :
  Lifecycle.initializeCanvasFeatures Lifecycle.registerThrows (Lifecycle.freshPlugin true false)
  = (Ok tt,
     Lifecycle.mkPlugin (Lifecycle.mkSettings (Some (Lifecycle.mkCanvasSettings true)) false)
       (Some 1%nat) (Some 2%nat) 0%nat
       ([] ++ [Lifecycle.LNewController; Lifecycle.LNewHandler 1%nat; Lifecycle.LRegister 2%nat;
               Lifecycle.LConsoleError "[Canvas AI] 初始化 Canvas 功能失败:"
                 (PlainError "Error" "register failed")])).
Proof.
  apply (proj2 (proj2 (initialize_failure_points Lifecycle.registerThrows
                         (Lifecycle.freshPlugin true false)
                         (PlainError "Error" "register failed") eq_refl))
           1%nat 2%nat 0%nat 0%nat 0%nat eq_refl eq_refl eq_refl).
Defined.

Lemma cleanup_skips_unregister_witness :
  Lifecycle.cleanupCanvasFeatures Lifecycle.cleanupThrows Lifecycle.runningPlugin
  = (Ok tt,
     Lifecycle.mkPlugin (Lifecycle.mkSettings (Some (Lifecycle.mkCanvasSettings true)) false)
       (Some 1%nat) (Some 2%nat) 1%nat
       ([] ++ [Lifecycle.LCleanup 1%nat;
               Lifecycle.LConsoleError "[Canvas AI] 清理 Canvas 资源失败:"
                 (PlainError "Error" "cleanup failed")])).
Proof.
  apply (cleanup_skips_unregister Lifecycle.cleanupThrows Lifecycle.runningPlugin
           1%nat (PlainError "Error" "cleanup failed") 1%nat eq_refl eq_refl).
Defined.

Lemma cleanup_uninitialised_witness :
  Lifecycle.cleanupCanvasFeatures Lifecycle.okModules (Lifecycle.freshPlugin true false)
  = (Ok tt, Lifecycle.freshPlugin true false).
Proof.
  apply (cleanup_uninitialised Lifecycle.okModules (Lifecycle.freshPlugin true false)
           eq_refl eq_refl).
Defined.

Lemma initialize_then_cleanup_witness :
  bind (Lifecycle.initializeCanvasFeatures Lifecycle.okModules)
    (fun _ => Lifecycle.cleanupCanvasFeatures Lifecycle.okModules)
    (Lifecycle.freshPlugin true false)
  = (Ok tt,
     Lifecycle.mkPlugin (Lifecycle.mkSettings (Some (Lifecycle.mkCanvasSettings true)) false)
       (Some 1%nat) (Some 2%nat) 0%nat
       [Lifecycle.LNewController; Lifecycle.LNewHandler 1%nat; Lifecycle.LRegister 2%nat;
        Lifecycle.LCleanup 1%nat; Lifecycle.LUnregister 2%nat]).
Proof.
  apply (initialize_then_cleanup Lifecycle.okModules (Lifecycle.freshPlugin true false)
           1%nat 2%nat 0%nat 0%nat 1%nat 1%nat 0%nat
           eq_refl eq_refl eq_refl eq_refl eq_refl eq_refl).
Defined.

End MoreScenarios.
